(** * goflow: the call_webhook and call_resthook actions and the services registry

    A shallow embedding of

      - [flows/engine/services.go]       (the registry of service factories),
      - [flows/actions/call_webhook.go]  (the call_webhook action),
      - [flows/actions/call_resthook.go] (the call_resthook action),

    with one Rocq module per Go package.  A Go value of type [(T, error)] is a
    pair of two options ([None] is [nil]); a Go [error] is its message.  The
    actions run in a small monad that threads the run and lets a statement
    [return e] leave [Execute] from inside a loop. *)

From Stdlib Require Import String Ascii List ZArith Bool Lia Permutation.
Import ListNotations.

Open Scope string_scope.
Open Scope Z_scope.

(* ===================================================================== *)
(** ** Package flows: the data the actions exchange with their collaborators *)
(* ===================================================================== *)

Module flows.

(** A Go [error], represented by its message. *)
Definition error : Type := string.

(** A Go result [(T, error)]: either component may be [nil]. *)
Definition result (T : Type) : Type := (option T * option error)%type.

(** The interface and asset types of package [flows] that the code under
    study only passes around: expression values, the service interfaces other
    than the webhook one, and the assets that configure them. *)
Class Interfaces : Type := {
  XValue : Type;
  EmailService : Type;
  ClassificationService : Type;
  TicketService : Type;
  AirtimeService : Type;
  ExternalServiceService : Type;
  MsgCatalogService : Type;
  Classifier : Type;
  Ticketer : Type;
  ExternalService : Type;
  MsgCatalog : Type
}.

(** [flows.CallStatus] *)
Inductive CallStatus : Type :=
| CallStatusConnectionError
| CallStatusResponseError
| CallStatusSuccess
| CallStatusSubscriberGone.

(** Modelled from the spec: the struct [flows.WebhookCall], whose declaration
    is not part of the sources at hand; the fields are those of the spec's
    webhook call record, [StatusCode] being a Go [int]. *)
Record WebhookCall : Type := {
  URL : string;
  Method : string;
  StatusCode : Z;
  Request : string;
  Response : string;
  ElapsedMS : Z
}.

(** An [http.Request] as the actions build it: method, URL, body and header.
    The header is a Go map from a canonical key to the values added under
    it; a map has no order between its keys, so it is kept here as its pairs
    (key, value) sorted by key, the values of one key in the order in which
    they were added. *)
Record HTTPRequest : Type := {
  req_method : string;
  req_url : string;
  req_header : list (string * string);
  req_body : string
}.

(** A resthook asset: a slug and the URLs of its subscribers. *)
Record Resthook : Type := {
  Slug : string;
  Subscribers : list string
}.

(** The events the two actions create (package [events]):
    [events.NewError]/[events.NewErrorf], [events.NewResthookCalled] and
    [events.NewWebhookCalled]. *)
Inductive Event : Type :=
| ErrorEvent (text : string)
| ResthookCalledEvent (resthook : string) (payload : string)
| WebhookCalledEvent (call : WebhookCall) (status : CallStatus) (resthook : string).

Section Run.
Context {ifc : Interfaces}.

(** What an action does to the world outside of itself, one entry per call on
    a collaborator:
      - [LogEvent e]: [logEvent(e)];
      - [ServiceCall req res]: [svc.Call(session, req)] answered [res];
      - [SetWebhook v]: [run.SetWebhook(v)];
      - [SaveWebhookResult] and [SaveResult]: the helpers
        [baseAction.saveWebhookResult] and [baseAction.saveResult], which live
        outside the files at hand, called with these arguments (the run, the
        step and the event callback left out). *)
Inductive Effect : Type :=
| LogEvent (e : Event)
| ServiceCall (req : HTTPRequest) (res : result WebhookCall)
| SetWebhook (v : XValue)
| SaveWebhookResult (name : string) (call : WebhookCall) (status : CallStatus)
    (responseAsExtra : bool)
| SaveResult (name value category categoryLocalized input : string)
    (extra : option string).

(** The run (and, through [run.Session()], the session) as the actions see
    it: the scratch webhook value, and the effects so far, oldest first. *)
Record FlowRun : Type := {
  run_webhook : XValue;
  run_trace : list Effect
}.

(** [flows.Session]: reached only as [run.Session()]. *)
Definition Session : Type := FlowRun.

(** [flows.WebhookService]: a single method [Call(session, request)]. *)
Record WebhookService : Type := {
  Call : Session -> HTTPRequest -> result WebhookCall
}.

End Run.

End flows.

(* ===================================================================== *)
(** ** Package engine: services.go *)
(* ===================================================================== *)

Module engine.
Import flows.

Section Services.
Context {ifc : Interfaces}.

Definition EmailServiceFactory : Type := Session -> result EmailService.
Definition WebhookServiceFactory : Type := Session -> result WebhookService.
Definition ClassificationServiceFactory : Type :=
  Session -> Classifier -> result ClassificationService.
Definition TicketServiceFactory : Type :=
  Session -> Ticketer -> result TicketService.
Definition AirtimeServiceFactory : Type := Session -> result AirtimeService.
Definition ExternalServiceServiceFactory : Type :=
  Session -> ExternalService -> result ExternalServiceService.
Definition MsgCatalogServiceFactory : Type :=
  Session -> MsgCatalog -> result MsgCatalogService.

Record services : Type := {
  email : EmailServiceFactory;
  webhook : WebhookServiceFactory;
  classification : ClassificationServiceFactory;
  ticket : TicketServiceFactory;
  airtime : AirtimeServiceFactory;
  externalService : ExternalServiceServiceFactory;
  msgCatalog : MsgCatalogServiceFactory
}.

(** [errors.New] *)
Definition errors_New (msg : string) : error := msg.

Definition newEmptyServices : services := {|
  email := fun _ => (None, Some (errors_New "no email service factory configured"));
  webhook := fun _ => (None, Some (errors_New "no webhook service factory configured"));
  classification := fun _ _ =>
    (None, Some (errors_New "no classification service factory configured"));
  ticket := fun _ _ => (None, Some (errors_New "no ticket service factory configured"));
  airtime := fun _ => (None, Some (errors_New "no airtime service factory configured"));
  externalService := fun _ _ =>
    (None, Some (errors_New "no external service factory configured"));
  msgCatalog := fun _ _ =>
    (None, Some (errors_New "no external service factory configured"))
|}.

Definition Email (s : services) (session : Session) : result EmailService :=
  email s session.

Definition Webhook (s : services) (session : Session) : result WebhookService :=
  webhook s session.

Definition Classification (s : services) (session : Session) (classifier : Classifier)
  : result ClassificationService :=
  classification s session classifier.

Definition Ticket (s : services) (session : Session) (ticketer : Ticketer)
  : result TicketService :=
  ticket s session ticketer.

Definition Airtime (s : services) (session : Session) : result AirtimeService :=
  airtime s session.

Definition ExternalService (s : services) (session : Session)
  (externalService' : flows.ExternalService) : result ExternalServiceService :=
  externalService s session externalService'.

Definition MsgCatalog (s : services) (session : Session)
  (msgCatalog' : flows.MsgCatalog) : result MsgCatalogService :=
  msgCatalog s session msgCatalog'.

End Services.

End engine.

(* ===================================================================== *)
(** ** Go libraries: net/textproto and x/net/http/httpguts *)
(* ===================================================================== *)

(** The two library functions on header field names, by their documented
    behaviour on the bytes of a string: a field name is a token of RFC 7230,
    and a key made of token bytes is canonical when its first letter and
    every letter after a dash is in upper case and every other letter in
    lower case. *)
Module textproto.

(** The punctuation of a token: the non-alphanumeric entries of
    [isTokenTable]. *)
Definition tokenPunctuation : string := "!#$%&'*+-.^_`|~".

Definition between (lo hi : nat) (c : ascii) : bool :=
  (Nat.leb lo (nat_of_ascii c) && Nat.leb (nat_of_ascii c) hi)%bool.

Definition isLower (c : ascii) : bool := between 97 122 c.
Definition isUpper (c : ascii) : bool := between 65 90 c.
Definition isDigit (c : ascii) : bool := between 48 57 c.

(** [validHeaderFieldByte]: the byte is a token character. *)
Definition validHeaderFieldByte (c : ascii) : bool :=
  (isLower c || isUpper c || isDigit c ||
   existsb (Ascii.eqb c) (list_ascii_of_string tokenPunctuation))%bool.

Fixpoint allBytes (p : ascii -> bool) (s : string) : bool :=
  match s with
  | EmptyString => true
  | String c s' => (p c && allBytes p s')%bool
  end.

(** [c -= toLower] and [c += toLower], the distance between the cases. *)
Definition toUpper (c : ascii) : ascii := ascii_of_nat (nat_of_ascii c - 32).
Definition toLower (c : ascii) : ascii := ascii_of_nat (nat_of_ascii c + 32).

(** The loop of [canonicalMIMEHeaderKey]: first letter upper case and upper
    case after each dash, [upper] telling whether the next byte starts a
    word. *)
Fixpoint canonicalize (upper : bool) (s : string) : string :=
  match s with
  | EmptyString => EmptyString
  | String c s' =>
      let c' := if (upper && isLower c)%bool then toUpper c
                else if (negb upper && isUpper c)%bool then toLower c
                else c in
      String c' (canonicalize (Ascii.eqb c' "-") s')
  end.

(** [textproto.CanonicalMIMEHeaderKey]: a string with a byte that is not a
    token character is returned unchanged. *)
Definition CanonicalMIMEHeaderKey (s : string) : string :=
  if allBytes validHeaderFieldByte s then canonicalize true s else s.

End textproto.

Module httpguts.

(** [httpguts.ValidHeaderFieldName]: not empty, and token characters only (a
    byte outside ASCII belongs to a rune that is no token rune). *)
Definition ValidHeaderFieldName (v : string) : bool :=
  (negb (String.eqb v "") && textproto.allBytes textproto.validHeaderFieldByte v)%bool.

End httpguts.

(* ===================================================================== *)
(** ** Package actions: call_webhook.go and call_resthook.go *)
(* ===================================================================== *)

Module actions.
Import flows.

(** What the actions call outside of the three files: the Go standard
    library ([url.Parse], [http.NewRequest], [json.Valid],
    [strings.ToUpper]), the expression language, the assets, the JSON helpers
    and the engine's service registry.  [url_Parse] and [http_NewRequest]
    give the error of the Go function, [None] standing for [nil]. *)
Class Runtime {ifc : Interfaces} : Type := {
  FindBySlug : string -> option Resthook;
  EvaluateTemplate : FlowRun -> string -> string * option error;
  json_Valid : string -> bool;
  url_Parse : string -> option error;
  http_NewRequest : string -> string -> string -> option error;
  strings_ToUpper : string -> string;
  ExtractResponseJSON : string -> string;
  JSONToXValue : string -> XValue;
  Services : engine.services
}.

(** *** The monad of an action body *)

(** How a statement ends: the body goes on with a value, the enclosing Go
    function has returned an error value, or a nil dereference has
    panicked. *)
Inductive Outcome (A : Type) : Type :=
| Next (a : A)
| Returned (e : option error)
| Panicked.
Arguments Next {A} a.
Arguments Returned {A} e.
Arguments Panicked {A}.

(** How a call of a Go function of result type [error] ends. *)
Inductive Completion : Type :=
| Returns (e : option error)
| Panics.

Section Monad.
Context {ifc : Interfaces}.

Definition M (A : Type) : Type := FlowRun -> FlowRun * Outcome A.

Definition ret {A : Type} (a : A) : M A := fun run => (run, Next a).

Definition bind {A B : Type} (m : M A) (k : A -> M B) : M B :=
  fun run =>
    match m run with
    | (run', Next a) => k a run'
    | (run', Returned e) => (run', Returned e)
    | (run', Panicked) => (run', Panicked)
    end.

(** The Go statement [return e]. *)
Definition return_ {A : Type} (e : option error) : M A := fun run => (run, Returned e).

Definition panic {A : Type} : M A := fun run => (run, Panicked).

(** A Go function of result type [error] whose body is [m]. *)
Definition func (m : M unit) (run : FlowRun) : FlowRun * Completion :=
  match m run with
  | (run', Next _) => (run', Returns None)
  | (run', Returned e) => (run', Returns e)
  | (run', Panicked) => (run', Panics)
  end.

(** The Go statement [return f(...)], [f] a function of result type [error]. *)
Definition return_call {A : Type} (f : FlowRun -> FlowRun * Completion) : M A :=
  fun run =>
    match f run with
    | (run', Returns e) => (run', Returned e)
    | (run', Panics) => (run', Panicked)
    end.

Definition emit (eff : Effect) (run : FlowRun) : FlowRun :=
  {| run_webhook := run_webhook run; run_trace := run_trace run ++ [eff] |}.

End Monad.

Declare Scope action_scope.
Delimit Scope action_scope with action.
Notation "x <- m ;; k" := (bind m (fun x => k))
  (at level 61, m at next level, right associativity) : action_scope.
Notation "' pat <- m ;; k" := (bind m (fun x => match x with pat => k end))
  (at level 61, pat pattern, m at next level, right associativity) : action_scope.
Notation "m ;; k" := (bind m (fun _ => k))
  (at level 61, right associativity) : action_scope.

Section Actions.
Context {ifc : Interfaces} {RT : Runtime}.
Open Scope list_scope.
Open Scope action_scope.

(** *** The collaborators, as statements *)

(** [logEvent(e)] *)
Definition logEvent (e : Event) : M unit := fun run => (emit (LogEvent e) run, Next tt).

(** [run.SetWebhook(v)] *)
Definition run_SetWebhook (v : XValue) : M unit :=
  fun run =>
    ({| run_webhook := v; run_trace := run_trace run ++ [SetWebhook v] |}, Next tt).

(** [run.EvaluateTemplate(template)] *)
Definition run_EvaluateTemplate (template : string) : M (string * option error) :=
  fun run => (run, Next (EvaluateTemplate run template)).

(** [run.Session().Engine().Services().Webhook(run.Session())] *)
Definition resolveWebhook : M (result WebhookService) :=
  fun run => (run, Next (engine.Webhook Services run)).

(** [svc.Call(run.Session(), req)]; calling through a nil [svc] panics. *)
Definition svc_Call (svc : option WebhookService) (req : HTTPRequest)
  : M (result WebhookCall) :=
  match svc with
  | None => panic
  | Some svc =>
      fun run =>
        let res := Call svc run req in (emit (ServiceCall req res) run, Next res)
  end.

(** [a.saveWebhookResult(run, step, name, call, status, responseAsExtra, logEvent)] *)
Definition saveWebhookResult (name : string) (call : WebhookCall) (status : CallStatus)
  (responseAsExtra : bool) : M unit :=
  fun run => (emit (SaveWebhookResult name call status responseAsExtra) run, Next tt).

(** [a.saveResult(run, step, name, value, category, categoryLocalized, input, extra, logEvent)] *)
Definition saveResult (name value category categoryLocalized input : string)
  (extra : option string) : M unit :=
  fun run =>
    (emit (SaveResult name value category categoryLocalized input extra) run, Next tt).

(** [events.NewError(err)] *)
Definition NewError (err : error) : Event := ErrorEvent err.

(** [events.NewErrorf(format, args...)], the message already formatted. *)
Definition NewErrorf (msg : string) : Event := ErrorEvent msg.

(** [errors.Wrapf(err, msg)] *)
Definition errors_Wrapf (err : error) (msg : string) : error :=
  (msg ++ ": " ++ err)%string.

(** [errors.Errorf(format, args...)], the message already formatted. *)
Definition errors_Errorf (msg : string) : error := msg.

(** The Go idiom [if err != nil { logEvent(events.NewError(err)) }]. *)
Definition logIfError (err : option error) : M unit :=
  match err with
  | Some e => logEvent (NewError e)
  | None => ret tt
  end.

(** [http.NewRequest(method, url, strings.NewReader(body))] *)
Definition NewRequest (method url body : string) : result HTTPRequest :=
  match http_NewRequest method url body with
  | Some err => (None, Some err)
  | None =>
      (Some {| req_method := method; req_url := url; req_header := [];
               req_body := body |}, None)
  end.

(** [append(h[key], value)] on a header kept sorted by key: the pair goes
    behind every pair whose key is not greater, so behind the values the key
    already has. *)
Fixpoint headerInsert (key value : string) (h : list (string * string))
  : list (string * string) :=
  match h with
  | [] => [(key, value)]
  | (k, v) :: h' =>
      if String.ltb key k then (key, value) :: (k, v) :: h'
      else (k, v) :: headerInsert key value h'
  end.

(** [req.Header.Add(key, value)]: the key is made canonical, the value added
    to the values of that key. *)
Definition Header_Add (req : HTTPRequest) (key value : string) : HTTPRequest :=
  {| req_method := req_method req; req_url := req_url req;
     req_header :=
       headerInsert (textproto.CanonicalMIMEHeaderKey key) value (req_header req);
     req_body := req_body req |}.

(** [h.Values(key)]: the values of the header under a canonical key, in the
    order in which they were added. *)
Definition Header_Values (h : list (string * string)) (key : string) : list string :=
  map snd (filter (fun kv => String.eqb (fst kv) key) h).

(** *** call_webhook.go *)

Definition isValidURL (u : string) : bool :=
  match url_Parse u with None => true | Some _ => false end.

Definition TypeCallWebhook : string := "call_webhook".

(** The fields of [CallWebhookAction]; [Headers] is a Go map, given here by
    its pairs in the order in which [range] visits them. *)
Record CallWebhookAction : Type := {
  cw_Method : string;
  cw_URL : string;
  cw_Headers : list (string * string);
  cw_Body : string;
  cw_ResultName : string;
  cw_ResponseAsExtra : bool
}.

(** determines the webhook status from the HTTP status code *)
Definition callStatus (call : WebhookCall) (isResthook : bool) : CallStatus :=
  if StatusCode call =? 0 then CallStatusConnectionError
  else if isResthook && (StatusCode call =? 410) then CallStatusSubscriberGone
  else if Z.quot (StatusCode call) 100 =? 2 then CallStatusSuccess
  else CallStatusResponseError.

(** The loop [for key, value := range a.Headers] of [call]. *)
Fixpoint addHeaders (headers : list (string * string)) (req : HTTPRequest)
  : M HTTPRequest :=
  match headers with
  | [] => ret req
  | (key, value) :: rest =>
      '(headerValue, err) <- run_EvaluateTemplate value ;;
      logIfError err ;;
      addHeaders rest (Header_Add req key headerValue)
  end.

Definition call (a : CallWebhookAction) (url method body : string)
  : FlowRun -> FlowRun * Completion :=
  func (
    (* build our request *)
    match NewRequest method url body with
    | (_, Some err) => return_ (Some err)
    | (None, None) => panic
    | (Some req, None) =>
        (* add the custom headers, substituting any template vars *)
        req <- addHeaders (cw_Headers a) req ;;
        '(svc, err) <- resolveWebhook ;;
        match err with
        | Some err => logEvent (NewError err) ;; return_ None
        | None =>
            '(call, err) <- svc_Call svc req ;;
            logIfError err ;;
            match call with
            | Some call =>
                let status := callStatus call false in
                logEvent (WebhookCalledEvent call status "") ;;
                run_SetWebhook (JSONToXValue (ExtractResponseJSON (Response call))) ;;
                (if String.eqb (cw_ResultName a) "" then ret tt
                 else saveWebhookResult (cw_ResultName a) call status
                        (cw_ResponseAsExtra a)) ;;
                return_ None
            | None => return_ None
            end
        end
    end).

(** [CallWebhookAction.Execute] *)
Definition CallWebhookAction_Execute (a : CallWebhookAction)
  : FlowRun -> FlowRun * Completion :=
  func (
    (* substitute any variables in our url *)
    '(url, err) <- run_EvaluateTemplate (cw_URL a) ;;
    logIfError err ;;
    if String.eqb url "" then
      logEvent (NewErrorf "webhook URL evaluated to empty string") ;;
      return_ None
    else if negb (isValidURL url) then
      logEvent (NewErrorf
        ("webhook URL evaluated to an invalid URL: '" ++ url ++ "'")%string) ;;
      return_ None
    else
      let method := strings_ToUpper (cw_Method a) in
      (* substitute any body variables *)
      body <- (if String.eqb (cw_Body a) "" then ret (cw_Body a)
               else '(body, err) <- run_EvaluateTemplate (cw_Body a) ;;
                    logIfError err ;;
                    ret body) ;;
      return_call (call a url method body)).

(** *** call_resthook.go *)

Definition dq : string := String "034"%char EmptyString.
Definition nl : string := String "010"%char EmptyString.

(** A string literal of the expression language: [s] between double quotes. *)
Definition q (s : string) : string := (dq ++ s ++ dq)%string.

(** ResthookPayload is the POST payload used by resthooks *)
Definition ResthookPayload : string :=
  ("@(json(object(" ++ nl ++
   "  " ++ q "contact" ++ ", object(" ++ q "uuid" ++ ", contact.uuid, " ++ q "name"
     ++ ", contact.name, " ++ q "urn" ++ ", contact.urn)," ++ nl ++
   "  " ++ q "flow" ++ ", run.flow," ++ nl ++
   "  " ++ q "path" ++ ", run.path," ++ nl ++
   "  " ++ q "results" ++ ", foreach_value(results, extract_object, " ++ q "category"
     ++ ", " ++ q "category_localized" ++ ", " ++ q "created_on" ++ ", " ++ q "input"
     ++ ", " ++ q "name" ++ ", " ++ q "node_uuid" ++ ", " ++ q "value" ++ ")," ++ nl ++
   "  " ++ q "run" ++ ", object(" ++ q "uuid" ++ ", run.uuid, " ++ q "created_on"
     ++ ", run.created_on)," ++ nl ++
   "  " ++ q "input" ++ ", if(" ++ nl ++
   "    input," ++ nl ++
   "    object(" ++ nl ++
   "      " ++ q "attachments" ++ ", foreach(input.attachments, attachment_parts)," ++ nl ++
   "      " ++ q "channel" ++ ", input.channel," ++ nl ++
   "      " ++ q "created_on" ++ ", input.created_on," ++ nl ++
   "      " ++ q "text" ++ ", input.text," ++ nl ++
   "      " ++ q "type" ++ ", input.type," ++ nl ++
   "      " ++ q "urn" ++ ", if(" ++ nl ++
   "        input.urn," ++ nl ++
   "        object(" ++ nl ++
   "          " ++ q "display" ++ ", default(format_urn(input.urn), " ++ q "" ++ ")," ++ nl ++
   "          " ++ q "path" ++ ", urn_parts(input.urn).path," ++ nl ++
   "          " ++ q "scheme" ++ ", urn_parts(input.urn).scheme" ++ nl ++
   "        )," ++ nl ++
   "        null" ++ nl ++
   "      )," ++ nl ++
   "      " ++ q "uuid" ++ ", input.uuid" ++ nl ++
   "    )," ++ nl ++
   "    null" ++ nl ++
   "  )," ++ nl ++
   "  " ++ q "channel" ++ ", default(input.channel, null)" ++ nl ++
   ")))")%string.

Definition TypeCallResthook : string := "call_resthook".

Record CallResthookAction : Type := {
  cr_Resthook : string;
  cr_ResultName : string
}.

(** The three variables of [pickResultCall], each [nil] or a call. *)
Record picked : Type := {
  lastSuccess : option WebhookCall;
  last410 : option WebhookCall;
  lastFailure : option WebhookCall
}.

(** One turn of the loop [for _, call := range calls]. *)
Definition pickStep (p : picked) (call : WebhookCall) : picked :=
  if Z.quot (StatusCode call) 100 =? 2 then
    {| lastSuccess := Some call; last410 := last410 p; lastFailure := lastFailure p |}
  else if StatusCode call =? 410 then
    {| lastSuccess := lastSuccess p; last410 := Some call; lastFailure := lastFailure p |}
  else
    {| lastSuccess := lastSuccess p; last410 := last410 p; lastFailure := Some call |}.

(** picks one of the resthook calls to become the result generated by this action *)
Definition pickResultCall (calls : list WebhookCall) : option WebhookCall :=
  let p := fold_left pickStep calls
             {| lastSuccess := None; last410 := None; lastFailure := None |} in
  (* 1. if we got one or more errors (non-410, non-200), result is last failure
     2. if we no errors, no 410s, but at least one success, result is last success
     3. if we only got 410s, result is last 410 *)
  match lastFailure p with
  | Some c => Some c
  | None =>
      match lastSuccess p with
      | Some c => Some c
      | None => last410 p
      end
  end.

(** The loop [for _, url := range resthook.Subscribers()] of [Execute]; its
    value is the slice [calls] when the loop ends. *)
Fixpoint callSubscribers (a : CallResthookAction) (payload : string)
  (subscribers : list string) (calls : list WebhookCall) : M (list WebhookCall) :=
  match subscribers with
  | [] => ret calls
  | url :: rest =>
      match NewRequest "POST" url payload with
      | (_, Some err) => logEvent (NewError err) ;; return_ None
      | (None, None) => panic
      | (Some req, None) =>
          let req := Header_Add req "Content-Type" "application/json" in
          '(svc, err) <- resolveWebhook ;;
          match err with
          | Some err => logEvent (NewError err) ;; return_ None
          | None =>
              '(call, err) <- svc_Call svc req ;;
              logIfError err ;;
              match call with
              | Some call =>
                  logEvent (WebhookCalledEvent call (callStatus call true)
                              (cr_Resthook a)) ;;
                  callSubscribers a payload rest (calls ++ [call])
              | None => callSubscribers a payload rest calls
              end
          end
      end
  end.

(** [CallResthookAction.Execute] *)
Definition CallResthookAction_Execute (a : CallResthookAction)
  : FlowRun -> FlowRun * Completion :=
  func (
    (* NOOP if resthook doesn't exist *)
    match FindBySlug (cr_Resthook a) with
    | None => return_ None
    | Some resthook =>
        (* build our payload *)
        '(payload, err) <- run_EvaluateTemplate ResthookPayload ;;
        match err with
        | Some err =>
            (* if we got an error then our payload is likely not valid JSON *)
            return_ (Some (errors_Wrapf err "error evaluating resthook payload"))
        | None =>
            (* check the payload is valid JSON *)
            if negb (json_Valid payload) then
              return_ (Some (errors_Errorf
                ("resthook payload evaluation produced invalid JSON: " ++ payload)%string))
            else
              (* regardless of what subscriber calls we make, we need to record
                 the payload that would be sent *)
              logEvent (ResthookCalledEvent (cr_Resthook a) payload) ;;
              (* make a call to each subscriber URL *)
              calls <- callSubscribers a payload (Subscribers resthook) [] ;;
              let asResult := pickResultCall calls in
              match asResult with
              | Some c =>
                  run_SetWebhook (JSONToXValue (ExtractResponseJSON (Response c)))
              | None => ret tt
              end ;;
              (if String.eqb (cr_ResultName a) "" then ret tt
               else
                 match asResult with
                 | Some c =>
                     saveWebhookResult (cr_ResultName a) c (callStatus c true) false
                 | None =>
                     saveResult (cr_ResultName a) "no subscribers" "Failure" "" "" None
                 end) ;;
              return_ None
        end
    end).

End Actions.

(** *** Reading a trace *)

Section Observations.
Context {ifc : Interfaces}.
Open Scope list_scope.

(** The effects between the run [run] and a later state [run'] of it. *)
Definition appended (run run' : FlowRun) : list Effect :=
  skipn (length (run_trace run)) (run_trace run').

(** The events given to [logEvent], in order. *)
Definition eventsOf (t : list Effect) : list Event :=
  flat_map (fun eff => match eff with LogEvent e => [e] | _ => [] end) t.

(** The requests handed to the webhook service, in order. *)
Definition requestsOf (t : list Effect) : list HTTPRequest :=
  flat_map (fun eff => match eff with ServiceCall req _ => [req] | _ => [] end) t.

(** The calls the webhook service gave back (the non-nil ones), in order. *)
Definition responsesOf (t : list Effect) : list WebhookCall :=
  flat_map (fun eff => match eff with ServiceCall _ (Some c, _) => [c] | _ => [] end) t.

(** The values given to [run.SetWebhook], in order. *)
Definition webhooksSet (t : list Effect) : list XValue :=
  flat_map (fun eff => match eff with SetWebhook v => [v] | _ => [] end) t.

Definition isSave (eff : Effect) : bool :=
  match eff with
  | SaveWebhookResult _ _ _ _ | SaveResult _ _ _ _ _ _ => true
  | _ => false
  end.

(** The results saved, in order. *)
Definition savesOf (t : list Effect) : list Effect := filter isSave t.

Definition isWebhookCalled (e : Event) : bool :=
  match e with WebhookCalledEvent _ _ _ => true | _ => false end.

Definition isResthookCalled (e : Event) : bool :=
  match e with ResthookCalledEvent _ _ => true | _ => false end.

Definition isError (e : Event) : bool :=
  match e with ErrorEvent _ => true | _ => false end.

(** An effect that is the logging of an error event. *)
Definition isErrorLog (eff : Effect) : bool :=
  match eff with LogEvent (ErrorEvent _) => true | _ => false end.

End Observations.

(** *** The statements of the specification, in its words *)

(** A status code of the 2xx range. *)
Definition is2xx (code : Z) : bool := (200 <=? code) && (code <=? 299).

(** "2xx -> success; status_code=0 -> connection_error; else response_error" *)
Definition statusOfCode (code : Z) : CallStatus :=
  if code =? 0 then CallStatusConnectionError
  else if is2xx code then CallStatusSuccess
  else CallStatusResponseError.

Definition returned2xx (c : WebhookCall) : bool := is2xx (StatusCode c).
Definition returned410 (c : WebhookCall) : bool := StatusCode c =? 410.
(** "a non-2xx, non-410" *)
Definition returnedFailure (c : WebhookCall) : bool :=
  negb (returned2xx c) && negb (returned410 c).

(** "the last such": the last element of [l] that satisfies [p], if any. *)
Definition lastSuch {A : Type} (p : A -> bool) (l : list A) : option A :=
  match rev (filter p l) with
  | [] => None
  | x :: _ => Some x
  end.

(** [c] is the last element of [l] that satisfies [p]: it satisfies [p],
    and nothing after it in [l] does. *)
Definition lastOf {A : Type} (p : A -> bool) (c : A) (l : list A) : Prop :=
  exists before after,
    l = (before ++ c :: after)%list /\ p c = true /\
    forallb (fun y => negb (p y)) after = true.

(** The precedence of the specification: (1) the last failure, (2) else the
    last 2xx, (3) else the last 410. *)
Definition resultCallOfSpec (calls : list WebhookCall) : option WebhookCall :=
  match lastSuch returnedFailure calls with
  | Some c => Some c
  | None =>
      match lastSuch returned2xx calls with
      | Some c => Some c
      | None => lastSuch returned410 calls
      end
  end.

(** *** Reading an execution of call_resthook *)

Section Reading.
Context {ifc : Interfaces} {RT : Runtime}.
Open Scope list_scope.

(** The [webhook_called] event of a call made for [resthook] (the empty
    string when the call is not made on behalf of a resthook). *)
Definition webhookCalledFor (isResthook : bool) (resthook : string) (c : WebhookCall)
  : Event :=
  WebhookCalledEvent c (callStatus c isResthook) resthook.

(** What a run of the subscriber loop leaves behind, [new] being the effects
    it appended and [out] its outcome: it saves no result and sets no
    webhook value, logs one [webhook_called] per answered call, and either
    visits every subscriber or stops on an error event with only the
    subscribers [done] visited. *)
Definition loopFacts (a : CallResthookAction) (subscribers : list string)
  (calls : list WebhookCall) (new : list Effect)
  (out : Outcome (list WebhookCall)) : Prop :=
  savesOf new = [] /\
  webhooksSet new = [] /\
  filter isResthookCalled (eventsOf new) = [] /\
  filter isWebhookCalled (eventsOf new) =
    map (webhookCalledFor true (cr_Resthook a)) (responsesOf new) /\
  match out with
  | Next calls' =>
      calls' = calls ++ responsesOf new /\
      map req_url (requestsOf new) = subscribers
  | Returned e =>
      e = None /\
      exists done url rest err pre,
        subscribers = done ++ url :: rest /\
        new = pre ++ [LogEvent (ErrorEvent err)] /\
        map req_url (requestsOf pre) = done
  | Panicked => True
  end.

(** The loop only appends to the trace, and leaves the scratch webhook value
    alone. *)
Definition loopSpec (a : CallResthookAction) (subscribers : list string)
  (calls : list WebhookCall) (run : FlowRun)
  (res : FlowRun * Outcome (list WebhookCall)) : Prop :=
  exists new,
    run_trace (fst res) = run_trace run ++ new /\
    run_webhook (fst res) = run_webhook run /\
    loopFacts a subscribers calls new (snd res).

(** The run after [if err != nil { logEvent(events.NewError(err)) }]. *)
Definition logged (err : option error) (run : FlowRun) : FlowRun :=
  match err with
  | Some e => emit (LogEvent (NewError e)) run
  | None => run
  end.

(** The run [run] with the effects [new] appended. *)
Definition extended (run : FlowRun) (new : list Effect) : FlowRun :=
  {| run_webhook := run_webhook run; run_trace := run_trace run ++ new |}.

(** The statements of [Execute] after the subscriber loop, as effects. *)
Definition resultEffects (a : CallResthookAction) (calls : list WebhookCall)
  : list Effect :=
  match pickResultCall calls with
  | Some c =>
      SetWebhook (JSONToXValue (ExtractResponseJSON (Response c))) ::
      (if String.eqb (cr_ResultName a) "" then []
       else [SaveWebhookResult (cr_ResultName a) c (callStatus c true) false])
  | None =>
      if String.eqb (cr_ResultName a) "" then []
      else [SaveResult (cr_ResultName a) "no subscribers" "Failure" "" "" None]
  end.

(** [Execute] from the end of the subscriber loop on. *)
Definition afterLoop (a : CallResthookAction)
  (res : FlowRun * Outcome (list WebhookCall)) : FlowRun * Completion :=
  match res with
  | (run, Next calls) =>
      ({| run_webhook :=
            match pickResultCall calls with
            | Some c => JSONToXValue (ExtractResponseJSON (Response c))
            | None => run_webhook run
            end;
          run_trace := run_trace run ++ resultEffects a calls |},
       Returns None)
  | (run, Returned e) => (run, Returns e)
  | (run, Panicked) => (run, Panics)
  end.

End Reading.

(** *** Validate and Results *)

Section Inspection.
Context {ifc : Interfaces} {RT : Runtime}.
Open Scope list_scope.

(** [httpguts.ValidHeaderFieldName], of golang.org/x/net. *)
Variable ValidHeaderFieldName : string -> bool.

(** The package variable [webhookCategories], declared outside the files at
    hand, and the type of [flows.Node]. *)
Variable webhookCategories : list string.
Variable Node : Type.

(** The loop [for key := range a.Headers] of [Validate], over the pairs of
    the map in the order [range] visits them. *)
Fixpoint validateHeaders (headers : list (string * string)) : option error :=
  match headers with
  | [] => None
  | (key, _) :: rest =>
      if negb (ValidHeaderFieldName key) then
        Some (errors_Errorf ("header '" ++ key ++ "' is not a valid HTTP header")%string)
      else validateHeaders rest
  end.

(** Validate validates our action is valid *)
Definition Validate (a : CallWebhookAction) : option error :=
  validateHeaders (cw_Headers a).

(** [flows.NewResultInfo(name, categories, node)], by its arguments. *)
Record ResultInfo : Type := NewResultInfo {
  ri_name : string;
  ri_categories : list string;
  ri_node : Node
}.

(** [CallWebhookAction.Results]: the values given to [include], in order. *)
Definition CallWebhookAction_Results (a : CallWebhookAction) (node : Node)
  : list ResultInfo :=
  if String.eqb (cw_ResultName a) "" then []
  else [NewResultInfo (cw_ResultName a) webhookCategories node].

(** [CallResthookAction.Results]: the values given to [include], in order. *)
Definition CallResthookAction_Results (a : CallResthookAction) (node : Node)
  : list ResultInfo :=
  if String.eqb (cr_ResultName a) "" then []
  else [NewResultInfo (cr_ResultName a) webhookCategories node].

End Inspection.

Arguments NewResultInfo {Node} ri_name ri_categories ri_node.
Arguments ri_name {Node} r.
Arguments ri_categories {Node} r.
Arguments ri_node {Node} r.
Arguments CallWebhookAction_Results webhookCategories {Node} a node.
Arguments CallResthookAction_Results webhookCategories {Node} a node.

(** *** Reading an execution of call_webhook *)

Section ReadingWebhook.
Context {ifc : Interfaces} {RT : Runtime}.
Open Scope list_scope.

(** The name under which a result is saved. *)
Definition savedName (eff : Effect) : option string :=
  match eff with
  | SaveWebhookResult name _ _ _ | SaveResult name _ _ _ _ _ => Some name
  | _ => None
  end.

(** The errors the webhook service gave back (the non-nil ones), in order. *)
Definition callErrorsOf (t : list Effect) : list error :=
  flat_map (fun eff => match eff with ServiceCall _ (_, Some e) => [e] | _ => [] end) t.

(** The text of the error events, in order. *)
Definition errorsLogged (t : list Effect) : list string :=
  flat_map (fun eff => match eff with LogEvent (ErrorEvent e) => [e] | _ => [] end) t.

(** The value given to [run.SetWebhook] for the call [c]. *)
Definition webhookOf (c : WebhookCall) : XValue :=
  JSONToXValue (ExtractResponseJSON (Response c)).

(** The body [Execute] of call_webhook sends, [run0] being the run after the
    evaluation of the URL: the field itself when it is empty, else its
    evaluation. *)
Definition evaluatedBody (a : CallWebhookAction) (run0 : FlowRun) : string :=
  if String.eqb (cw_Body a) "" then cw_Body a
  else fst (EvaluateTemplate run0 (cw_Body a)).

(** The run in which [call] starts. *)
Definition runAtCall (a : CallWebhookAction) (run : FlowRun) : FlowRun :=
  let run0 := logged (snd (EvaluateTemplate run (cw_URL a))) run in
  if String.eqb (cw_Body a) "" then run0
  else logged (snd (EvaluateTemplate run0 (cw_Body a))) run0.

(** The effects of [call] from [svc.Call] on, [r] being its answer. *)
Definition callEffects (a : CallWebhookAction) (req : HTTPRequest)
  (r : result WebhookCall) : list Effect :=
  ServiceCall req r ::
  match snd r with Some e => [LogEvent (ErrorEvent e)] | None => [] end ++
  match fst r with
  | Some c =>
      [LogEvent (WebhookCalledEvent c (callStatus c false) "");
       SetWebhook (webhookOf c)] ++
      (if String.eqb (cw_ResultName a) "" then []
       else [SaveWebhookResult (cw_ResultName a) c (callStatus c false)
               (cw_ResponseAsExtra a)])
  | None => []
  end.

(** The request a subscriber of a resthook is sent. *)
Definition subscriberRequest (payload url : string) : HTTPRequest :=
  {| req_method := "POST"; req_url := url;
     req_header := [("Content-Type"%string, "application/json"%string)];
     req_body := payload |}.

(** What an execution of call_webhook leaves, read off the effects [new] it
    appended: at most one request, of the shape the action asks for, at most
    one answer, and a webhook value and a result per answer. *)
Definition webhookOutcome (a : CallWebhookAction) (run : FlowRun)
  (res : FlowRun * Completion) (new : list Effect) : Prop :=
  (length (requestsOf new) <= 1)%nat /\
  (forall req, In req (requestsOf new) ->
     req_url req = fst (EvaluateTemplate run (cw_URL a)) /\
     req_method req = strings_ToUpper (cw_Method a) /\
     req_body req =
       evaluatedBody a (logged (snd (EvaluateTemplate run (cw_URL a))) run) /\
     Permutation (map fst (req_header req))
       (map (fun kv => textproto.CanonicalMIMEHeaderKey (fst kv)) (cw_Headers a))) /\
  (length (responsesOf new) <= 1)%nat /\
  webhooksSet new = map webhookOf (responsesOf new) /\
  savesOf new =
    (if String.eqb (cw_ResultName a) "" then []
     else map (fun c => SaveWebhookResult (cw_ResultName a) c (callStatus c false)
                          (cw_ResponseAsExtra a)) (responsesOf new)) /\
  run_webhook (fst res) =
    match responsesOf new with
    | c :: _ => webhookOf c
    | [] => run_webhook run
    end.

(** What the subscriber loop asks of the service: [new] being its effects,
    it has sent the request of a resthook to the subscribers [visited], the
    first of its subscribers, in order; it ends having visited them all and
    logged the errors of their calls, or early at a subscriber whose request
    or service failed, or in a panic on a factory that gave nothing. *)
Definition loopVisits (payload : string) (subscribers : list string)
  (new : list Effect) (out : Outcome (list WebhookCall)) : Prop :=
  exists visited rest,
    subscribers = visited ++ rest /\
    requestsOf new = map (subscriberRequest payload) visited /\
    match out with
    | Next _ => rest = [] /\ errorsLogged new = callErrorsOf new
    | Returned _ =>
        exists url rest',
          rest = url :: rest' /\
          (http_NewRequest "POST" url payload <> None \/
           exists session, snd (engine.Webhook Services session) <> None)
    | Panicked => exists session, engine.Webhook Services session = (None, None)
    end.

(** A status that tells a failed call. *)
Definition isFailureStatus (s : CallStatus) : bool :=
  match s with
  | CallStatusConnectionError | CallStatusResponseError => true
  | _ => false
  end.

End ReadingWebhook.

End actions.

(* ===================================================================== *)
(** ** Package main of cmd/flowrunner: the helpers of runner_test.go *)
(* ===================================================================== *)

Module flowrunner.
Import flows.

(** [strings.Contains(s, substr)]: [substr] starts at some byte of [s]. *)
Fixpoint strings_Contains (s substr : string) : bool :=
  if String.prefix substr s then true
  else
    match s with
    | EmptyString => false
    | String _ s' => strings_Contains s' substr
    end.

Definition deriveFilename (prefix filename : string) : string :=
  let filename := if String.eqb filename "" then "default.json" else filename in
  if negb (strings_Contains filename "/") then
    ("testdata" ++ "/" ++ prefix ++ filename)%string
  else filename.

Section Files.

(** [ioutil.ReadFile], the file system being outside. *)
Variable ioutil_ReadFile : string -> result string.

Definition readFile (prefix filename : string) : result string :=
  let filename := deriveFilename prefix filename in
  match ioutil_ReadFile filename with
  | (_, Some err) =>
      (None, Some ("Error reading file '" ++ filename ++ "': " ++ err)%string)
  | (bytes, None) => (bytes, None)
  end.

End Files.

End flowrunner.

(* ===================================================================== *)
(** ** Concrete runs *)
(* ===================================================================== *)

Module fixtures.
Import flows actions.
Open Scope list_scope.

(** Every interface a singleton, expression values their JSON text. *)
Definition plainInterfaces : Interfaces := {|
  XValue := string;
  EmailService := unit;
  ClassificationService := unit;
  TicketService := unit;
  AirtimeService := unit;
  ExternalServiceService := unit;
  MsgCatalogService := unit;
  Classifier := unit;
  Ticketer := unit;
  ExternalService := unit;
  MsgCatalog := unit
|}.
#[local] Existing Instance plainInterfaces.

Definition answer (url : string) (code : Z) : WebhookCall :=
  {| URL := url; Method := "POST"; StatusCode := code; Request := "POST " ++ url;
     Response := "{}"; ElapsedMS := 1 |}.

(** A webhook service that answers each URL of [table] with its status code
    and has no answer, only an error, for every other URL. *)
Fixpoint tableCall (table : list (string * Z)) (url : string) : result WebhookCall :=
  match table with
  | [] => (None, Some "no such host"%string)
  | (u, code) :: table' =>
      if String.eqb u url then (Some (answer url code), None) else tableCall table' url
  end.

Definition tableService (table : list (string * Z)) : WebhookService :=
  {| Call := fun _ req => tableCall table (req_url req) |}.

(** The empty registry with the webhook factory replaced. *)
Definition servicesWith (factory : engine.WebhookServiceFactory) : engine.services := {|
  engine.email := engine.email engine.newEmptyServices;
  engine.webhook := factory;
  engine.classification := engine.classification engine.newEmptyServices;
  engine.ticket := engine.ticket engine.newEmptyServices;
  engine.airtime := engine.airtime engine.newEmptyServices;
  engine.externalService := engine.externalService engine.newEmptyServices;
  engine.msgCatalog := engine.msgCatalog engine.newEmptyServices
|}.

Definition table : list (string * Z) :=
  [("http://a.example/hook", 200); ("http://b.example/hook", 410);
   ("http://c.example/hook", 500)].

Definition hooks : list Resthook :=
  [ {| Slug := "new-registration";
       Subscribers := ["http://a.example/hook"; "http://b.example/hook";
                       "http://c.example/hook"] |};
    {| Slug := "nobody"; Subscribers := [] |};
    {| Slug := "broken";
       Subscribers := ["http://a.example/hook"; "not a url";
                       "http://c.example/hook"] |} ].

Definition findHook (slug : string) : option Resthook :=
  find (fun h => String.eqb (Slug h) slug) hooks.

(** A runtime whose templates hold no expression (each evaluates to itself,
    the resthook payload to [payload] with the error [payloadErr]), in which
    only ["not a url"] is not a URL and a method must be a token, with the
    services [servs]. *)
Definition runtimeWith (payload : string) (payloadErr : option error)
  (servs : engine.services) : Runtime := {|
  FindBySlug := findHook;
  EvaluateTemplate := fun _ template =>
    if String.eqb template ResthookPayload then (payload, payloadErr)
    else if String.eqb template "@missing" then ("", Some "missing is not defined"%string)
    else if String.eqb template "@(bad)" then
      ("http://a.example/hook"%string, Some "bad is not defined"%string)
    else (template, None);
  json_Valid := fun s => String.eqb s "{}";
  url_Parse := fun u =>
    if String.eqb u "not a url" then Some "invalid URL"%string else None;
  http_NewRequest := fun method u _ =>
    if negb (textproto.allBytes textproto.validHeaderFieldByte method) then
      Some "net/http: invalid method"%string
    else if String.eqb u "not a url" then Some "invalid URL"%string
    else None;
  strings_ToUpper := fun s => s;
  ExtractResponseJSON := fun s => s;
  JSONToXValue := fun s => s;
  Services := servs
|}.

(** The usual runtime: a valid payload and a working webhook service. *)
Definition working : Runtime :=
  runtimeWith "{}" None (servicesWith (fun _ => (Some (tableService table), None))).

(** A runtime with no service configured. *)
Definition unconfigured : Runtime := runtimeWith "{}" None engine.newEmptyServices.

(** A runtime whose payload template fails although its text is valid JSON. *)
Definition failingPayload : Runtime :=
  runtimeWith "{}" (Some "contact has no urn"%string)
    (servicesWith (fun _ => (Some (tableService table), None))).

(** A runtime whose payload is not JSON. *)
Definition invalidPayload : Runtime :=
  runtimeWith "{" None (servicesWith (fun _ => (Some (tableService table), None))).

(** A runtime in which [http.NewRequest] refuses every request. *)
Definition refusingRequests : Runtime := {|
  FindBySlug := findHook;
  EvaluateTemplate := fun _ template => (template, None);
  json_Valid := fun s => String.eqb s "{}";
  url_Parse := fun _ => None;
  http_NewRequest := fun _ _ _ => Some "net/http: invalid method"%string;
  strings_ToUpper := fun s => s;
  ExtractResponseJSON := fun s => s;
  JSONToXValue := fun s => s;
  Services := servicesWith (fun _ => (Some (tableService table), None))
|}.

(** A runtime whose webhook factory gives neither a service nor an error. *)
Definition lawless : Runtime := runtimeWith "{}" None (servicesWith (fun _ => (None, None))).

Definition freshRun : FlowRun := {| run_webhook := "null"%string; run_trace := [] |}.

Definition registration (resultName : string) : CallResthookAction :=
  {| cr_Resthook := "new-registration"; cr_ResultName := resultName |}.

Definition resthookAction (slug resultName : string) : CallResthookAction :=
  {| cr_Resthook := slug; cr_ResultName := resultName |}.

Definition webhookAction (url resultName : string) : CallWebhookAction :=
  {| cw_Method := "GET"; cw_URL := url; cw_Headers := [("Accept"%string, "*/*"%string)];
     cw_Body := ""; cw_ResultName := resultName; cw_ResponseAsExtra := false |}.

End fixtures.

(* ===================================================================== *)
(** ** Properties *)
(* ===================================================================== *)

Import flows actions.
Open Scope list_scope.

(** *** Status codes and the choice of the result call *)

Lemma quot_100_is2xx (code : Z) : (Z.quot code 100 =? 2) = is2xx code.
Proof.
  unfold is2xx.
  pose proof (Z.quot_rem' code 100) as E.
  destruct (Z.leb_spec 0 code) as [Hpos | Hneg].
  - pose proof (Z.rem_bound_pos code 100 Hpos ltac:(lia)) as B.
    destruct (Z.eqb_spec (Z.quot code 100) 2);
      destruct (Z.leb_spec 200 code); destruct (Z.leb_spec code 299);
      simpl; try reflexivity; lia.
  - assert (Z.quot code 100 <= 0) as Q.
    { replace code with (- (- code)) by lia.
      rewrite Z.quot_opp_l by lia.
      pose proof (Z.quot_pos (- code) 100 ltac:(lia) ltac:(lia)). lia. }
    destruct (Z.eqb_spec (Z.quot code 100) 2);
      destruct (Z.leb_spec 200 code); simpl; try reflexivity; lia.
Qed.

Lemma lastSuch_snoc {A : Type} (p : A -> bool) (l : list A) (x : A) :
  lastSuch p (l ++ [x]) = if p x then Some x else lastSuch p l.
Proof.
  unfold lastSuch. rewrite filter_app. simpl.
  destruct (p x).
  - rewrite rev_app_distr. reflexivity.
  - rewrite app_nil_r. reflexivity.
Qed.

Lemma lastSuch_split {A : Type} (p : A -> bool) (l : list A) (x : A) :
  lastSuch p l = Some x <-> lastOf p x l.
Proof.
  unfold lastOf.
  induction l as [| y l IH] using rev_ind.
  - split.
    + discriminate.
    + intros (before & after & E & _). destruct before; discriminate.
  - rewrite lastSuch_snoc. split.
    + destruct (p y) eqn:Py.
      * intros [= ->]. exists l, []. auto.
      * intros H. apply IH in H as (before & after & -> & Px & Hafter).
        exists before, (after ++ [y]). rewrite <- app_assoc. simpl.
        repeat split; auto.
        rewrite forallb_app, Hafter. simpl. rewrite Py. reflexivity.
    + intros (before & after & E & Px & Hafter).
      destruct after as [| z after] using rev_ind.
      * apply app_inj_tail in E as [-> ->]. rewrite Px. reflexivity.
      * clear IHafter. rewrite app_comm_cons, app_assoc in E.
        apply app_inj_tail in E as [-> ->].
        rewrite forallb_app in Hafter. apply andb_true_iff in Hafter as [Hafter Hz].
        simpl in Hz. destruct (p z); [discriminate |].
        apply IH. exists before, after. auto.
Qed.

Lemma lastSuch_none {A : Type} (p : A -> bool) (l : list A) :
  lastSuch p l = None <-> forallb (fun y => negb (p y)) l = true.
Proof.
  induction l as [| y l IH] using rev_ind.
  - split; reflexivity.
  - rewrite lastSuch_snoc, forallb_app. simpl.
    destruct (p y); simpl.
    + rewrite andb_false_r. split; discriminate.
    + rewrite andb_true_r. exact IH.
Qed.

Lemma lastSuch_some {A : Type} (p : A -> bool) (l : list A) :
  existsb p l = true -> exists c, lastSuch p l = Some c /\ lastOf p c l.
Proof.
  intros H.
  destruct (lastSuch p l) as [c |] eqn:E.
  - exists c. split; [reflexivity |]. apply lastSuch_split. exact E.
  - apply lastSuch_none in E.
    apply existsb_exists in H as (x & Hin & Hx).
    rewrite forallb_forall in E. specialize (E x Hin).
    rewrite Hx in E. discriminate.
Qed.

Lemma lastSuch_absent {A : Type} (p : A -> bool) (l : list A) :
  existsb p l = false -> lastSuch p l = None.
Proof.
  intros H. apply lastSuch_none. apply forallb_forall. intros x Hin.
  destruct (p x) eqn:Hx; [| reflexivity].
  assert (existsb p l = true) as H' by (apply existsb_exists; eauto).
  rewrite H in H'. discriminate.
Qed.

Lemma pick_loop (calls : list WebhookCall) :
  fold_left pickStep calls
    {| lastSuccess := None; last410 := None; lastFailure := None |} =
  {| lastSuccess := lastSuch returned2xx calls;
     last410 := lastSuch returned410 calls;
     lastFailure := lastSuch returnedFailure calls |}.
Proof.
  induction calls as [| c calls IH] using rev_ind.
  - reflexivity.
  - rewrite fold_left_app, IH. simpl.
    rewrite !lastSuch_snoc. unfold pickStep. simpl.
    unfold returnedFailure, returned410, returned2xx.
    rewrite quot_100_is2xx.
    destruct (is2xx (StatusCode c)) eqn:E2.
    + assert ((StatusCode c =? 410) = false) as ->.
      { unfold is2xx in E2. lia. }
      reflexivity.
    + destruct (StatusCode c =? 410); reflexivity.
Qed.

(** *** Traces and the subscriber loop *)

Section TraceFacts.
Context {ifc : Interfaces}.

Lemma appended_app (run run' : FlowRun) (new : list Effect) :
  run_trace run' = run_trace run ++ new -> appended run run' = new.
Proof.
  intros E. unfold appended. rewrite E.
  rewrite skipn_app, skipn_all, Nat.sub_diag. reflexivity.
Qed.

Lemma appended_refl (run : FlowRun) : appended run run = [].
Proof. apply appended_app. rewrite app_nil_r. reflexivity. Qed.

End TraceFacts.

Section LoopFacts.
Context {ifc : Interfaces} {RT : Runtime}.

Lemma loopSpec_step (a : CallResthookAction) (url : string) (rest : list string)
  (calls calls' : list WebhookCall) (run run1 : FlowRun) (req : HTTPRequest)
  (r : result WebhookCall) (evs : list Effect)
  (res : FlowRun * Outcome (list WebhookCall)) :
  req_url req = url ->
  run_trace run1 = run_trace run ++ ServiceCall req r :: evs ->
  run_webhook run1 = run_webhook run ->
  savesOf evs = [] -> webhooksSet evs = [] ->
  filter isResthookCalled (eventsOf evs) = [] ->
  filter isWebhookCalled (eventsOf evs) =
    map (webhookCalledFor true (cr_Resthook a)) (responsesOf [ServiceCall req r]) ->
  requestsOf evs = [] -> responsesOf evs = [] ->
  calls' = calls ++ responsesOf [ServiceCall req r] ->
  loopSpec a rest calls' run1 res ->
  loopSpec a (url :: rest) calls run res.
Proof.
  intros Hurl Ht Hw Hs Hset Hr Hwc Hreq Hresp Hcalls
    (new & Ht' & Hw' & Hs' & Hset' & Hr' & Hwc' & Hout).
  exists (ServiceCall req r :: evs ++ new).
  unfold loopFacts, savesOf, webhooksSet, eventsOf, requestsOf, responsesOf in *.
  repeat split.
  - rewrite Ht', Ht, <- app_assoc. reflexivity.
  - congruence.
  - simpl. rewrite filter_app, Hs, Hs'. reflexivity.
  - simpl. rewrite flat_map_app, Hset, Hset'. reflexivity.
  - simpl. rewrite flat_map_app, filter_app, Hr, Hr'. reflexivity.
  - simpl in Hwc |- *. rewrite !flat_map_app, filter_app, Hwc, Hwc', Hresp.
    rewrite app_nil_r in Hwc |- *. simpl.
    destruct r as [[c |] ?]; simpl; rewrite ?map_app; reflexivity.
  - destruct (snd res) as [calls'' | e |].
    + destruct Hout as [-> Hurls]. split.
      * subst calls'. simpl. rewrite flat_map_app, Hresp. simpl.
        rewrite app_nil_r in *. rewrite <- app_assoc.
        destruct r as [[c |] ?]; reflexivity.
      * simpl. rewrite flat_map_app, Hreq. simpl. congruence.
    + destruct Hout as [-> (done & u & rest' & err & pre & -> & -> & Hdone)].
      split; [reflexivity |].
      exists (url :: done), u, rest', err, (ServiceCall req r :: evs ++ pre).
      repeat split.
      * simpl. rewrite <- app_assoc. reflexivity.
      * simpl. rewrite flat_map_app, Hreq. simpl. congruence.
    + exact I.
Qed.

Ltac loop_turn Ecall IH evs0 :=
  match type of Ecall with
  | Call _ _ ?R = ?res =>
      eapply loopSpec_step with (req := R) (r := res) (evs := evs0);
      [ | | | | | | | | | | apply IH ];
      unfold loopFacts; simpl; rewrite <- ?app_assoc, ?app_nil_r; reflexivity
  end.

Lemma callSubscribers_spec (a : CallResthookAction) (payload : string)
  (subscribers : list string) :
  forall calls run,
    loopSpec a subscribers calls run (callSubscribers a payload subscribers calls run).
Proof.
  induction subscribers as [| url rest IH]; intros calls run.
  - exists []. unfold loopFacts. simpl. rewrite !app_nil_r. repeat split; reflexivity.
  - simpl. unfold NewRequest.
    destruct (http_NewRequest "POST" url payload) as [err |].
    + exists [LogEvent (ErrorEvent err)]. unfold loopFacts. simpl. repeat split.
      exists [], url, rest, err, []. repeat split.
    + unfold bind, resolveWebhook.
      destruct (engine.Webhook Services run) as [svc [err |]].
      * exists [LogEvent (ErrorEvent err)]. unfold loopFacts. simpl. repeat split.
        exists [], url, rest, err, []. repeat split.
      * destruct svc as [svc |]; simpl.
        -- destruct (Call svc run _) as [[c |] [err |]] eqn:Ecall; simpl.
           ++ loop_turn Ecall IH
                [LogEvent (ErrorEvent err);
                 LogEvent (WebhookCalledEvent c (callStatus c true) (cr_Resthook a))].
           ++ loop_turn Ecall IH
                [LogEvent (WebhookCalledEvent c (callStatus c true) (cr_Resthook a))].
           ++ loop_turn Ecall IH [LogEvent (ErrorEvent err)].
           ++ loop_turn Ecall IH (@nil Effect).
        -- exists []. unfold loopFacts. simpl. rewrite app_nil_r. repeat split.
Qed.

End LoopFacts.

(** *** The status of a call *)

Lemma callStatus_false (c : WebhookCall) :
  callStatus c false = statusOfCode (StatusCode c).
Proof.
  unfold callStatus, statusOfCode. simpl. rewrite quot_100_is2xx. reflexivity.
Qed.

Lemma callStatus_gone (c : WebhookCall) (isResthook : bool) :
  callStatus c isResthook = CallStatusSubscriberGone <->
  isResthook = true /\ StatusCode c = 410.
Proof.
  unfold callStatus.
  destruct (Z.eqb_spec (StatusCode c) 0) as [E0 | E0].
  - split; [discriminate | intros [_ E]; lia].
  - destruct isResthook; simpl.
    + destruct (Z.eqb_spec (StatusCode c) 410) as [E | E].
      * split; auto.
      * destruct (Z.quot (StatusCode c) 100 =? 2);
          (split; [discriminate | intros [_ E']; contradiction]).
    + destruct (Z.quot (StatusCode c) 100 =? 2);
        (split; [discriminate | intros [E' _]; discriminate]).
Qed.

Section WebhookFacts.
Context {ifc : Interfaces} {RT : Runtime}.

Lemma onlyErrors_observed (t : list Effect) :
  forallb isErrorLog t = true ->
  requestsOf t = [] /\ responsesOf t = [] /\ webhooksSet t = [] /\ savesOf t = [] /\
  filter isWebhookCalled (eventsOf t) = [] /\
  filter isResthookCalled (eventsOf t) = [].
Proof.
  induction t as [| eff t IH]; simpl.
  - repeat split.
  - intros H. apply andb_true_iff in H as [Heff Ht].
    destruct (IH Ht) as (H1 & H2 & H3 & H4 & H5 & H6).
    destruct eff as [[] | | | |]; try discriminate; simpl.
    repeat split; assumption.
Qed.

(** The header loop only evaluates templates and logs their errors. *)
Lemma addHeaders_spec (headers : list (string * string)) :
  forall req run,
  exists new req',
    addHeaders headers req run =
      ({| run_webhook := run_webhook run; run_trace := run_trace run ++ new |},
       Next req') /\
    forallb isErrorLog new = true /\
    req_url req' = req_url req /\ req_method req' = req_method req /\
    req_body req' = req_body req.
Proof.
  induction headers as [| [key value] rest IH]; intros req run; simpl.
  - exists [], req. rewrite app_nil_r. destruct run; repeat split.
  - unfold bind, run_EvaluateTemplate.
    destruct (EvaluateTemplate run value) as [headerValue [err |]]; simpl.
    + destruct (IH (Header_Add req key headerValue) (emit (LogEvent (NewError err)) run))
        as (new & req' & E & Hnew & Hurl & Hm & Hb).
      exists (LogEvent (NewError err) :: new), req'.
      rewrite E. simpl. rewrite <- app_assoc. repeat split; assumption.
    + destruct (IH (Header_Add req key headerValue) run)
        as (new & req' & E & Hnew & Hurl & Hm & Hb).
      exists new, req'. rewrite E. repeat split; assumption.
Qed.

Lemma logIfError_logged (err : option error) (run : FlowRun) :
  logIfError err run = (logged err run, Next tt).
Proof. destruct err; reflexivity. Qed.

Lemma logged_extended (err : option error) (run : FlowRun) :
  exists pre, logged err run = extended run pre /\ forallb isErrorLog pre = true.
Proof.
  destruct err as [e |]; simpl.
  - exists [LogEvent (ErrorEvent e)]. split; reflexivity.
  - exists []. unfold extended. rewrite app_nil_r. destruct run. split; reflexivity.
Qed.

Lemma extended_extended (run : FlowRun) (t u : list Effect) :
  extended (extended run t) u = extended run (t ++ u).
Proof. unfold extended. simpl. rewrite app_assoc. reflexivity. Qed.

(** What [call] does, by the outcome of building the request and of
    resolving the service. *)
Lemma call_cases (a : CallWebhookAction) (url method body : string) (run : FlowRun) :
  match http_NewRequest method url body with
  | Some e => call a url method body run = (run, Returns (Some e))
  | None =>
      exists pre req,
        forallb isErrorLog pre = true /\ req_url req = url /\
        match engine.Webhook Services (extended run pre) with
        | (_, Some e) =>
            call a url method body run =
              (emit (LogEvent (ErrorEvent e)) (extended run pre), Returns None)
        | (None, None) => call a url method body run = (extended run pre, Panics)
        | (Some svc, None) =>
            let r := Call svc (extended run pre) req in
            exists post,
              snd (call a url method body run) = Returns None /\
              run_trace (fst (call a url method body run)) =
                run_trace run ++ pre ++ ServiceCall req r :: post /\
              requestsOf post = [] /\ responsesOf post = [] /\
              filter isResthookCalled (eventsOf post) = [] /\
              filter isWebhookCalled (eventsOf post) =
                map (webhookCalledFor false "") (responsesOf [ServiceCall req r]) /\
              (fst r = None ->
                 run_webhook (fst (call a url method body run)) = run_webhook run /\
                 webhooksSet post = [] /\ savesOf post = [])
        end
  end.
Proof.
  unfold call, NewRequest.
  destruct (http_NewRequest method url body) as [e |]; [reflexivity |].
  unfold func, bind.
  destruct (addHeaders_spec (cw_Headers a)
              {| req_method := method; req_url := url; req_header := [];
                 req_body := body |} run)
    as (pre & req & E & Hpre & Hurl & _ & _).
  rewrite E. fold (extended run pre).
  exists pre, req. split; [assumption |]. split; [exact Hurl |].
  unfold resolveWebhook.
  destruct (engine.Webhook Services (extended run pre)) as [[svc |] [e |]];
    cbv beta iota; try reflexivity.
  unfold svc_Call. cbv zeta.
  destruct (Call svc (extended run pre) req) as [[c |] err] eqn:Ecall;
    rewrite logIfError_logged; unfold logEvent, run_SetWebhook, saveWebhookResult.
  - destruct err as [e |]; destruct (String.eqb (cw_ResultName a) ""); simpl;
      eexists; (split; [reflexivity |]); rewrite <- ?app_assoc; simpl;
      (split; [reflexivity |]); repeat split; discriminate.
  - destruct err as [e |]; simpl;
      eexists; (split; [reflexivity |]); rewrite <- ?app_assoc; simpl;
      (split; [reflexivity |]); repeat split.
Qed.

End WebhookFacts.

Section WebhookExecute.
Context {ifc : Interfaces} {RT : Runtime}.

(** What [CallWebhookAction.Execute] does before [call]: with [url] and [err]
    the evaluation of the URL template, it stops on an empty or invalid URL
    and otherwise hands over to [call], having at most logged errors. *)
Lemma webhook_Execute_cases (a : CallWebhookAction) (run : FlowRun) :
  let url := fst (EvaluateTemplate run (cw_URL a)) in
  let run0 := logged (snd (EvaluateTemplate run (cw_URL a))) run in
  if String.eqb url "" then
    CallWebhookAction_Execute a run =
      (emit (LogEvent (ErrorEvent "webhook URL evaluated to empty string")) run0,
       Returns None)
  else if isValidURL url then
    exists pre body,
      forallb isErrorLog pre = true /\
      CallWebhookAction_Execute a run =
        call a url (strings_ToUpper (cw_Method a)) body (extended run0 pre)
  else
    CallWebhookAction_Execute a run =
      (emit (LogEvent (ErrorEvent
         ("webhook URL evaluated to an invalid URL: '" ++ url ++ "'")%string)) run0,
       Returns None).
Proof.
  unfold CallWebhookAction_Execute, func, bind, run_EvaluateTemplate.
  destruct (EvaluateTemplate run (cw_URL a)) as [url err]. cbv zeta. simpl fst. simpl snd.
  rewrite logIfError_logged.
  destruct (String.eqb url ""); [reflexivity |].
  destruct (isValidURL url); cbv beta iota delta [negb]; [| reflexivity].
  destruct (String.eqb (cw_Body a) "").
  - exists [], (cw_Body a). split; [reflexivity |].
    unfold ret, return_call, extended. rewrite app_nil_r.
    replace {| run_webhook := run_webhook (logged err run);
               run_trace := run_trace (logged err run) |} with (logged err run)
      by (destruct (logged err run); reflexivity).
    destruct (call a url _ _ (logged err run)) as [run' [e |]]; reflexivity.
  - destruct (EvaluateTemplate (logged err run) (cw_Body a)) as [body berr].
    rewrite logIfError_logged.
    destruct (logged_extended berr (logged err run)) as (pre & -> & Hpre).
    exists pre, body. split; [assumption |].
    unfold ret, return_call.
    destruct (call a url _ body _) as [run' [e |]]; reflexivity.
Qed.

End WebhookExecute.

(** *** The executions of call_resthook *)

Section ResthookExecute.
Context {ifc : Interfaces} {RT : Runtime}.

(** [CallResthookAction.Execute], by the outcome of its three guards. *)
Lemma resthook_Execute_cases (a : CallResthookAction) (run : FlowRun) :
  match FindBySlug (cr_Resthook a) with
  | None => CallResthookAction_Execute a run = (run, Returns None)
  | Some rh =>
      match snd (EvaluateTemplate run ResthookPayload) with
      | Some e =>
          CallResthookAction_Execute a run =
            (run, Returns (Some (errors_Wrapf e "error evaluating resthook payload")))
      | None =>
          let payload := fst (EvaluateTemplate run ResthookPayload) in
          if json_Valid payload then
            CallResthookAction_Execute a run =
              afterLoop a
                (callSubscribers a payload (Subscribers rh) []
                   (emit (LogEvent (ResthookCalledEvent (cr_Resthook a) payload)) run))
          else
            CallResthookAction_Execute a run =
              (run, Returns (Some (errors_Errorf
                 ("resthook payload evaluation produced invalid JSON: " ++ payload)%string)))
      end
  end.
Proof.
  unfold CallResthookAction_Execute.
  destruct (FindBySlug (cr_Resthook a)) as [rh |]; [| reflexivity].
  unfold func, bind, run_EvaluateTemplate.
  destruct (EvaluateTemplate run ResthookPayload) as [payload [e |]]; simpl fst; simpl snd;
    cbv beta iota zeta; [reflexivity |].
  destruct (json_Valid payload); cbv beta iota delta [negb]; [| reflexivity].
  unfold logEvent at 1.
  destruct (callSubscribers a payload (Subscribers rh) [] _) as [run2 [calls | e |]];
    try reflexivity.
  unfold afterLoop, resultEffects.
  destruct (pickResultCall calls) as [c |];
    destruct (String.eqb (cr_ResultName a) ""); destruct run2 as [w t];
    simpl; unfold emit; simpl; rewrite <- ?app_assoc, ?app_nil_r; reflexivity.
Qed.

Lemma pickResultCall_nil : pickResultCall [] = None.
Proof. reflexivity. Qed.

Lemma resultEffects_observed (a : CallResthookAction) (calls : list WebhookCall) :
  eventsOf (resultEffects a calls) = [] /\
  requestsOf (resultEffects a calls) = [] /\
  responsesOf (resultEffects a calls) = [].
Proof.
  unfold resultEffects.
  destruct (pickResultCall calls); destruct (String.eqb (cr_ResultName a) "");
    repeat split.
Qed.

(** The shape of every execution of call_resthook: nothing at all, or the
    [resthook_called] event, the effects [loop] of the subscriber loop and,
    when the loop was not left early, the effects of the result. *)
Lemma resthook_Execute_shape (a : CallResthookAction) (run : FlowRun) :
  let res := CallResthookAction_Execute a run in
  (fst res = run) \/
  exists rh payload loop out,
    let run1 := emit (LogEvent (ResthookCalledEvent (cr_Resthook a) payload)) run in
    FindBySlug (cr_Resthook a) = Some rh /\
    EvaluateTemplate run ResthookPayload = (payload, None) /\
    json_Valid payload = true /\
    loopFacts a (Subscribers rh) [] loop out /\
    callSubscribers a payload (Subscribers rh) [] run1 = (extended run1 loop, out) /\
    res = afterLoop a (extended run1 loop, out).
Proof.
  cbv zeta.
  pose proof (resthook_Execute_cases a run) as C.
  destruct (FindBySlug (cr_Resthook a)) as [rh |]; [| left; rewrite C; reflexivity].
  destruct (EvaluateTemplate run ResthookPayload) as [payload [e |]] eqn:Eev;
    simpl in C; [left; rewrite C; reflexivity |].
  destruct (json_Valid payload) eqn:Ev; [| left; rewrite C; reflexivity].
  right.
  pose proof (callSubscribers_spec a payload (Subscribers rh) []
                (emit (LogEvent (ResthookCalledEvent (cr_Resthook a) payload)) run)) as L.
  destruct (callSubscribers a payload (Subscribers rh) [] _) as [run2 out] eqn:Eloop.
  destruct L as (loop & Ht & Hw & Hfacts).
  assert (run2 =
            extended (emit (LogEvent (ResthookCalledEvent (cr_Resthook a) payload)) run)
              loop) as ->.
  { unfold extended. destruct run2 as [w t]. simpl in Ht, Hw |- *.
    rewrite Ht, Hw. reflexivity. }
  exists rh, payload, loop, out.
  split; [reflexivity |]. split; [reflexivity |]. split; [exact Ev |].
  split; [exact Hfacts |]. split; [exact Eloop | exact C].
Qed.

(** The effects of an execution that reached the subscriber loop. *)
Lemma afterLoop_appended (a : CallResthookAction) (run : FlowRun) (first : Effect)
  (loop : list Effect) (out : Outcome (list WebhookCall)) :
  appended run (fst (afterLoop a (extended (emit first run) loop, out))) =
  first :: loop ++
    match out with
    | Next calls => resultEffects a calls
    | _ => []
    end.
Proof.
  apply appended_app.
  destruct out as [calls | e |]; simpl; rewrite <- !app_assoc; simpl;
    rewrite ?app_nil_r; reflexivity.
Qed.

Lemma afterLoop_completion (a : CallResthookAction) (run : FlowRun)
  (out : Outcome (list WebhookCall)) :
  snd (afterLoop a (run, out)) =
  match out with
  | Next _ => Returns None
  | Returned e => Returns e
  | Panicked => Panics
  end.
Proof. destruct out; reflexivity. Qed.

Lemma afterLoop_webhook (a : CallResthookAction) (run : FlowRun)
  (out : Outcome (list WebhookCall)) :
  run_webhook (fst (afterLoop a (run, out))) =
  match out with
  | Next calls =>
      match pickResultCall calls with
      | Some c => JSONToXValue (ExtractResponseJSON (Response c))
      | None => run_webhook run
      end
  | _ => run_webhook run
  end.
Proof. destruct out; reflexivity. Qed.

End ResthookExecute.

(** *** The choice of the result call, and the unknown resthook *)

Lemma In_savesOf {ifc : Interfaces} (eff : Effect) (t : list Effect) :
  In eff t -> isSave eff = true -> In eff (savesOf t).
Proof. intros Hin Hs. apply filter_In. split; assumption. Qed.

Lemma In_webhooksSet {ifc : Interfaces} (v : XValue) (t : list Effect) :
  In (SetWebhook v) t <-> In v (webhooksSet t).
Proof.
  unfold webhooksSet. rewrite in_flat_map. split.
  - intros H. exists (SetWebhook v). split; [assumption | left; reflexivity].
  - intros (eff & Hin & Hv). destruct eff; simpl in Hv; try contradiction.
    destruct Hv as [-> | []]. assumption.
Qed.

Lemma responsesOf_app {ifc : Interfaces} (t u : list Effect) :
  responsesOf (t ++ u) = responsesOf t ++ responsesOf u.
Proof. apply flat_map_app. Qed.

Lemma eventsOf_app {ifc : Interfaces} (t u : list Effect) :
  eventsOf (t ++ u) = eventsOf t ++ eventsOf u.
Proof. apply flat_map_app. Qed.

Lemma requestsOf_app {ifc : Interfaces} (t u : list Effect) :
  requestsOf (t ++ u) = requestsOf t ++ requestsOf u.
Proof. apply flat_map_app. Qed.

Lemma webhooksSet_app {ifc : Interfaces} (t u : list Effect) :
  webhooksSet (t ++ u) = webhooksSet t ++ webhooksSet u.
Proof. apply flat_map_app. Qed.

Lemma savesOf_app {ifc : Interfaces} (t u : list Effect) :
  savesOf (t ++ u) = savesOf t ++ savesOf u.
Proof. apply filter_app. Qed.

Lemma pickResultCall_spec (calls : list WebhookCall) :
  pickResultCall calls = resultCallOfSpec calls.
Proof.
  unfold pickResultCall, resultCallOfSpec. rewrite pick_loop. reflexivity.
Qed.

(** *** The requests of call_resthook *)

Section ResthookVisits.
Context {ifc : Interfaces} {RT : Runtime}.

Lemma errorsLogged_app (t u : list Effect) :
  errorsLogged (t ++ u) = errorsLogged t ++ errorsLogged u.
Proof. apply flat_map_app. Qed.

Lemma callErrorsOf_app (t u : list Effect) :
  callErrorsOf (t ++ u) = callErrorsOf t ++ callErrorsOf u.
Proof. apply flat_map_app. Qed.

Lemma loopVisits_step (payload url : string) (rest : list string)
  (r : result WebhookCall) (evs new : list Effect)
  (out : Outcome (list WebhookCall)) :
  requestsOf evs = [] ->
  errorsLogged evs = callErrorsOf [ServiceCall (subscriberRequest payload url) r] ->
  callErrorsOf evs = [] ->
  loopVisits payload rest new out ->
  loopVisits payload (url :: rest)
    (ServiceCall (subscriberRequest payload url) r :: evs ++ new) out.
Proof.
  intros Hreq Herr Hcall (visited & rest' & -> & Hv & Hout).
  exists (url :: visited), rest'. split; [reflexivity |]. split.
  - simpl. rewrite requestsOf_app, Hreq, Hv. reflexivity.
  - destruct out as [calls | e |]; try exact Hout.
    destruct Hout as [-> Herrs]. split; [reflexivity |].
    change (ServiceCall ?q r :: evs ++ new) with ([ServiceCall q r] ++ evs ++ new).
    rewrite !errorsLogged_app, !callErrorsOf_app, Herr, Hcall, Herrs. reflexivity.
Qed.

Lemma callSubscribers_visits (a : CallResthookAction) (payload : string)
  (subscribers : list string) :
  forall calls run,
  exists new,
    run_trace (fst (callSubscribers a payload subscribers calls run)) =
      run_trace run ++ new /\
    loopVisits payload subscribers new
      (snd (callSubscribers a payload subscribers calls run)).
Proof.
  induction subscribers as [| url rest IH]; intros calls run.
  - exists []. simpl. rewrite app_nil_r. split; [reflexivity |].
    exists [], []. repeat split.
  - simpl. unfold NewRequest.
    destruct (http_NewRequest "POST" url payload) as [err |] eqn:Hreq.
    + exists [LogEvent (ErrorEvent err)]. simpl. split; [reflexivity |].
      exists [], (url :: rest). split; [reflexivity |]. split; [reflexivity |].
      exists url, rest. split; [reflexivity |]. left. rewrite Hreq. discriminate.
    + unfold bind, resolveWebhook.
      destruct (engine.Webhook Services run) as [[svc |] [err |]] eqn:Hsvc.
      * exists [LogEvent (ErrorEvent err)]. simpl. split; [reflexivity |].
        exists [], (url :: rest). split; [reflexivity |]. split; [reflexivity |].
        exists url, rest. split; [reflexivity |]. right. exists run.
        rewrite Hsvc. discriminate.
      * unfold svc_Call. cbv zeta.
        change (Header_Add _ "Content-Type" "application/json")
          with (subscriberRequest payload url).
        destruct (Call svc run (subscriberRequest payload url)) as [[c |] [err |]];
          rewrite logIfError_logged; unfold logEvent.
        -- destruct (IH (calls ++ [c])
                       (emit (LogEvent (WebhookCalledEvent c (callStatus c true)
                                          (cr_Resthook a)))
                          (logged (Some err)
                             (emit (ServiceCall (subscriberRequest payload url)
                                      (Some c, Some err)) run))))
             as (new & Ht & Hv).
           eexists. split; [rewrite Ht; simpl; rewrite <- !app_assoc; reflexivity |].
           apply (loopVisits_step payload url rest (Some c, Some err)
                    [LogEvent (ErrorEvent err);
                     LogEvent (WebhookCalledEvent c (callStatus c true)
                                 (cr_Resthook a))]); try reflexivity.
           exact Hv.
        -- destruct (IH (calls ++ [c])
                       (emit (LogEvent (WebhookCalledEvent c (callStatus c true)
                                          (cr_Resthook a)))
                          (logged None
                             (emit (ServiceCall (subscriberRequest payload url)
                                      (Some c, None)) run))))
             as (new & Ht & Hv).
           eexists. split; [rewrite Ht; simpl; rewrite <- !app_assoc; reflexivity |].
           apply (loopVisits_step payload url rest (Some c, None)
                    [LogEvent (WebhookCalledEvent c (callStatus c true)
                                 (cr_Resthook a))]); try reflexivity.
           exact Hv.
        -- destruct (IH calls
                       (logged (Some err)
                          (emit (ServiceCall (subscriberRequest payload url)
                                   (None, Some err)) run)))
             as (new & Ht & Hv).
           eexists. split; [rewrite Ht; simpl; rewrite <- !app_assoc; reflexivity |].
           apply (loopVisits_step payload url rest (None, Some err)
                    [LogEvent (ErrorEvent err)]); try reflexivity.
           exact Hv.
        -- destruct (IH calls
                       (logged None
                          (emit (ServiceCall (subscriberRequest payload url)
                                   (None, None)) run)))
             as (new & Ht & Hv).
           eexists. split; [rewrite Ht; simpl; rewrite <- !app_assoc; reflexivity |].
           apply (loopVisits_step payload url rest (None, None) []); try reflexivity.
           exact Hv.
      * exists [LogEvent (ErrorEvent err)]. simpl. split; [reflexivity |].
        exists [], (url :: rest). split; [reflexivity |]. split; [reflexivity |].
        exists url, rest. split; [reflexivity |]. right. exists run.
        rewrite Hsvc. discriminate.
      * exists []. simpl. rewrite app_nil_r. split; [reflexivity |].
        exists [], (url :: rest). split; [reflexivity |]. split; [reflexivity |].
        exists run. exact Hsvc.
Qed.

(** The effects of the subscriber loop in an execution that reached it. *)
Lemma resthook_Execute_visits (a : CallResthookAction) (run : FlowRun) :
  let res := CallResthookAction_Execute a run in
  (fst res = run /\ snd res <> Panics) \/
  exists rh payload loop out,
    FindBySlug (cr_Resthook a) = Some rh /\
    EvaluateTemplate run ResthookPayload = (payload, None) /\
    json_Valid payload = true /\
    loopFacts a (Subscribers rh) [] loop out /\
    loopVisits payload (Subscribers rh) loop out /\
    res = afterLoop a
            (extended (emit (LogEvent (ResthookCalledEvent (cr_Resthook a) payload)) run)
               loop, out).
Proof.
  cbv zeta.
  pose proof (resthook_Execute_cases a run) as C.
  destruct (FindBySlug (cr_Resthook a)) as [rh |];
    [| left; rewrite C; split; [reflexivity | discriminate]].
  destruct (EvaluateTemplate run ResthookPayload) as [payload [e |]] eqn:Eev;
    simpl in C; [left; rewrite C; split; [reflexivity | discriminate] |].
  destruct (json_Valid payload) eqn:Ev;
    [| left; rewrite C; split; [reflexivity | discriminate]].
  right.
  pose proof (callSubscribers_spec a payload (Subscribers rh) []
                (emit (LogEvent (ResthookCalledEvent (cr_Resthook a) payload)) run)) as L.
  destruct (callSubscribers_visits a payload (Subscribers rh) []
              (emit (LogEvent (ResthookCalledEvent (cr_Resthook a) payload)) run))
    as (new & Ht' & Hvisits).
  destruct (callSubscribers a payload (Subscribers rh) [] _) as [run2 out] eqn:Eloop.
  destruct L as (loop & Ht & Hw & Hfacts).
  simpl in Ht, Hw, Hfacts, Ht', Hvisits.
  assert (new = loop) as -> by (rewrite Ht in Ht'; apply app_inv_head in Ht'; congruence).
  assert (run2 =
            extended (emit (LogEvent (ResthookCalledEvent (cr_Resthook a) payload)) run)
              loop) as ->.
  { unfold extended. destruct run2 as [w t]. simpl in Ht, Hw |- *.
    rewrite Ht, Hw. reflexivity. }
  exists rh, payload, loop, out.
  split; [reflexivity |]. split; [reflexivity |]. split; [exact Ev |].
  split; [exact Hfacts |]. split; [exact Hvisits | exact C].
Qed.

End ResthookVisits.

Section ResultEffects.
Context {ifc : Interfaces} {RT : Runtime}.

Lemma resultEffects_saves (a : CallResthookAction) (calls : list WebhookCall) :
  savesOf (resultEffects a calls) =
    (if String.eqb (cr_ResultName a) "" then []
     else [match pickResultCall calls with
           | Some c => SaveWebhookResult (cr_ResultName a) c (callStatus c true) false
           | None => SaveResult (cr_ResultName a) "no subscribers" "Failure" "" "" None
           end]) /\
  webhooksSet (resultEffects a calls) =
    match pickResultCall calls with Some c => [webhookOf c] | None => [] end /\
  errorsLogged (resultEffects a calls) = [] /\
  callErrorsOf (resultEffects a calls) = [].
Proof.
  unfold resultEffects, webhookOf.
  destruct (pickResultCall calls); destruct (String.eqb (cr_ResultName a) "");
    repeat split.
Qed.

End ResultEffects.

Section ResthookCompletes.
Context {ifc : Interfaces} {RT : Runtime}.

(** When nothing stops the subscriber loop, [Execute] of call_resthook ends
    with the effects of the result, computed from the calls answered. *)
Lemma resthook_run_to_result (a : CallResthookAction) (run : FlowRun) (rh : Resthook)
  (payload : string) :
  FindBySlug (cr_Resthook a) = Some rh ->
  EvaluateTemplate run ResthookPayload = (payload, None) ->
  json_Valid payload = true ->
  (forall url, In url (Subscribers rh) -> http_NewRequest "POST" url payload = None) ->
  (forall session, exists svc, engine.Webhook Services session = (Some svc, None)) ->
  let res := CallResthookAction_Execute a run in
  let new := appended run (fst res) in
  savesOf new = savesOf (resultEffects a (responsesOf new)) /\
  webhooksSet new = webhooksSet (resultEffects a (responsesOf new)) /\
  run_webhook (fst res) =
    match pickResultCall (responsesOf new) with
    | Some c => webhookOf c
    | None => run_webhook run
    end.
Proof.
  intros Hfind Heval Hvalid Hreq Hsvc. cbv zeta.
  pose proof (resthook_Execute_cases a run) as C.
  rewrite Hfind, Heval in C. simpl in C. rewrite Hvalid in C.
  pose proof (callSubscribers_spec a payload (Subscribers rh) []
                (emit (LogEvent (ResthookCalledEvent (cr_Resthook a) payload)) run)) as L.
  destruct (callSubscribers_visits a payload (Subscribers rh) []
              (emit (LogEvent (ResthookCalledEvent (cr_Resthook a) payload)) run))
    as (new & Ht' & visited & rest & Hsubs & _ & Hout).
  destruct (callSubscribers a payload (Subscribers rh) [] _) as [run2 out] eqn:Eloop.
  destruct L as (loop & Ht & Hw & Hs & Hset & _ & _ & Hcalls).
  simpl in Ht, Hw, Hcalls, Ht', Hout.
  assert (run2 =
            extended (emit (LogEvent (ResthookCalledEvent (cr_Resthook a) payload)) run)
              loop) as ->.
  { unfold extended. destruct run2 as [w t]. simpl in Ht, Hw |- *.
    rewrite Ht, Hw. reflexivity. }
  destruct out as [calls | e |].
  - destruct Hcalls as [-> _]. simpl app in *.
    rewrite C, afterLoop_appended, afterLoop_webhook.
    destruct (resultEffects_observed a (responsesOf loop)) as (_ & _ & K).
    change (LogEvent ?e :: ?t) with ([LogEvent e] ++ t).
    rewrite !responsesOf_app, !savesOf_app, !webhooksSet_app, K, Hs, Hset.
    simpl. rewrite !app_nil_r. repeat split.
  - exfalso. destruct Hout as (url & rest' & -> & [H | [session H]]).
    + apply H, Hreq. rewrite Hsubs. apply in_or_app. right. left. reflexivity.
    + destruct (Hsvc session) as [svc Es]. rewrite Es in H. apply H. reflexivity.
  - exfalso. destruct Hout as [session H].
    destruct (Hsvc session) as [svc Es]. rewrite Es in H. discriminate.
Qed.

End ResthookCompletes.

(** C1.  The call that becomes the result of call_resthook follows the
    precedence of the specification: the last call whose status code is
    neither 2xx nor 410 if there is one, else the last 2xx call if there is
    one, else the last 410 call (and none for no call at all); "last" by
    position: the chosen call qualifies and no call after it does.  Three
    calls answered 200, 410 and 500 give the 500 one.  A result saved by
    [Execute] from a call is saved from the call so chosen among the calls
    its subscribers answered, the scratch webhook value being set from the
    same call; and [Execute] does save it: when it goes through all its
    subscribers, it sets the webhook value from the chosen call and, with a
    result name, saves the one result of that call, which for subscribers
    answering 200, 410 and 500 is the result of the 500 call, a
    response_error. *)
Theorem pickResultCall_precedence {ifc : Interfaces} {RT : Runtime} :
  (forall calls : list WebhookCall, pickResultCall calls = resultCallOfSpec calls) /\
  (forall calls : list WebhookCall,
     (existsb returnedFailure calls = true ->
      exists c, pickResultCall calls = Some c /\ lastOf returnedFailure c calls) /\
     (existsb returnedFailure calls = false -> existsb returned2xx calls = true ->
      exists c, pickResultCall calls = Some c /\ lastOf returned2xx c calls) /\
     (existsb returnedFailure calls = false -> existsb returned2xx calls = false ->
      calls <> [] ->
      exists c, pickResultCall calls = Some c /\ lastOf returned410 c calls) /\
     (calls = [] -> pickResultCall calls = None)) /\
  (forall c1 c2 c3 : WebhookCall,
     StatusCode c1 = 200 -> StatusCode c2 = 410 -> StatusCode c3 = 500 ->
     pickResultCall [c1; c2; c3] = Some c3) /\
  (forall (a : CallResthookAction) (run : FlowRun) (name : string) (c : WebhookCall)
          (status : CallStatus) (asExtra : bool),
     let new := appended run (fst (CallResthookAction_Execute a run)) in
     In (SaveWebhookResult name c status asExtra) new ->
     resultCallOfSpec (responsesOf new) = Some c /\
     status = callStatus c true /\
     In (SetWebhook (JSONToXValue (ExtractResponseJSON (Response c)))) new) /\
  (forall (a : CallResthookAction) (run : FlowRun) (rh : Resthook) (payload : string),
     FindBySlug (cr_Resthook a) = Some rh ->
     EvaluateTemplate run ResthookPayload = (payload, None) ->
     json_Valid payload = true ->
     (forall url, In url (Subscribers rh) ->
        http_NewRequest "POST" url payload = None) ->
     (forall session, exists svc, engine.Webhook Services session = (Some svc, None)) ->
     let res := CallResthookAction_Execute a run in
     let new := appended run (fst res) in
     (forall c, resultCallOfSpec (responsesOf new) = Some c ->
        webhooksSet new = [JSONToXValue (ExtractResponseJSON (Response c))] /\
        run_webhook (fst res) = JSONToXValue (ExtractResponseJSON (Response c)) /\
        (cr_ResultName a <> ""%string ->
         savesOf new =
           [SaveWebhookResult (cr_ResultName a) c (callStatus c true) false])) /\
     (forall c1 c2 c3,
        responsesOf new = [c1; c2; c3] ->
        StatusCode c1 = 200 -> StatusCode c2 = 410 -> StatusCode c3 = 500 ->
        cr_ResultName a <> ""%string ->
        savesOf new =
          [SaveWebhookResult (cr_ResultName a) c3 CallStatusResponseError false])).
Proof.
  split; [exact pickResultCall_spec |]. split; [| split; [| split]].
  - intros calls. rewrite pickResultCall_spec. unfold resultCallOfSpec.
    split; [| split; [| split]].
    + intros Hf. destruct (lastSuch_some _ _ Hf) as (c & -> & Hlast). eauto.
    + intros Hf Hs. rewrite (lastSuch_absent _ _ Hf).
      destruct (lastSuch_some _ _ Hs) as (c & -> & Hlast). eauto.
    + intros Hf Hs Hne.
      rewrite (lastSuch_absent _ _ Hf), (lastSuch_absent _ _ Hs).
      assert (existsb returned410 calls = true) as Hg.
      { destruct calls as [| c calls]; [contradiction |].
        simpl in Hf, Hs |- *. apply orb_false_iff in Hf as [Hf _].
        apply orb_false_iff in Hs as [Hs _].
        unfold returnedFailure in Hf. rewrite Hs in Hf. simpl in Hf.
        apply negb_false_iff in Hf. rewrite Hf. reflexivity. }
      destruct (lastSuch_some _ _ Hg) as (c & -> & Hlast). eauto.
    + intros ->. reflexivity.
  - intros c1 c2 c3 H1 H2 H3.
    unfold pickResultCall. simpl. unfold pickStep. simpl.
    rewrite H1, H2, H3. reflexivity.
  - intros a run name c status asExtra new Hin. subst new.
    destruct (resthook_Execute_shape a run)
      as [E | (rh & payload & loop & out & _ & _ & _ & Hfacts & _ & E)].
    + rewrite E, appended_refl in Hin. contradiction.
    + rewrite E, afterLoop_appended in Hin |- *.
      destruct Hfacts as (Hs & _ & _ & _ & Hout).
      destruct Hin as [Hin | Hin]; [discriminate |].
      apply in_app_or in Hin as [Hin | Hin].
      { apply In_savesOf in Hin; [| reflexivity]. rewrite Hs in Hin. contradiction. }
      destruct out as [calls | e |]; try contradiction.
      destruct Hout as [Hcalls _]. simpl in Hcalls.
      destruct (resultEffects_observed a calls) as (_ & _ & Hresp).
      change (LogEvent ?e :: ?t) with ([LogEvent e] ++ t).
      rewrite !responsesOf_app, Hresp, app_nil_r. simpl. rewrite <- Hcalls.
      rewrite <- pickResultCall_spec.
      unfold resultEffects in Hin |- *.
      destruct (pickResultCall calls) as [c' |].
      * destruct (String.eqb (cr_ResultName a) ""); simpl in Hin.
        -- destruct Hin as [Hin | []]. discriminate.
        -- destruct Hin as [Hin | [Hin | []]]; [discriminate |].
           injection Hin as _ -> <- _.
           split; [reflexivity |]. split; [reflexivity |].
           right. apply in_or_app. right. left. reflexivity.
      * destruct (String.eqb (cr_ResultName a) ""); simpl in Hin.
        -- contradiction.
        -- destruct Hin as [Hin | []]. discriminate.
  - intros a run rh payload Hfind Heval Hvalid Hreq Hsvc. cbv zeta.
    destruct (resthook_run_to_result a run rh payload Hfind Heval Hvalid Hreq Hsvc)
      as (Hsaves & Hsets & Hweb).
    assert (forall c,
              pickResultCall
                (responsesOf (appended run (fst (CallResthookAction_Execute a run)))) =
                Some c ->
              webhooksSet (appended run (fst (CallResthookAction_Execute a run))) =
                [JSONToXValue (ExtractResponseJSON (Response c))] /\
              run_webhook (fst (CallResthookAction_Execute a run)) =
                JSONToXValue (ExtractResponseJSON (Response c)) /\
              (cr_ResultName a <> ""%string ->
               savesOf (appended run (fst (CallResthookAction_Execute a run))) =
                 [SaveWebhookResult (cr_ResultName a) c (callStatus c true) false]))
      as Hchosen.
    { intros c Hc. rewrite Hsaves, Hsets, Hweb.
      destruct (resultEffects_saves a
                  (responsesOf (appended run (fst (CallResthookAction_Execute a run)))))
        as (-> & -> & _).
      rewrite Hc. split; [reflexivity |]. split; [reflexivity |].
      intros Hname. apply String.eqb_neq in Hname. rewrite Hname. reflexivity. }
    split.
    + intros c Hc. apply Hchosen. rewrite pickResultCall_spec. exact Hc.
    + intros c1 c2 c3 Hresp H1 H2 H3 Hname.
      assert (pickResultCall [c1; c2; c3] = Some c3) as Hpick.
      { unfold pickResultCall. simpl. unfold pickStep. simpl.
        rewrite H1, H2, H3. reflexivity. }
      rewrite <- Hresp in Hpick.
      destruct (Hchosen c3 Hpick) as (_ & _ & Hsave).
      rewrite (Hsave Hname). unfold callStatus. rewrite H3. reflexivity.
Qed.

Lemma pickResultCall_precedence_witness :
  pickResultCall
    [fixtures.answer "a" 200; fixtures.answer "b" 410; fixtures.answer "c" 500] =
    Some (fixtures.answer "c" 500) /\
  resultCallOfSpec
    (responsesOf
       (appended fixtures.freshRun
          (fst (@CallResthookAction_Execute fixtures.plainInterfaces fixtures.working
                  (fixtures.registration "signup") fixtures.freshRun)))) =
    Some (fixtures.answer "http://c.example/hook" 500) /\
  savesOf
    (appended fixtures.freshRun
       (fst (@CallResthookAction_Execute fixtures.plainInterfaces fixtures.working
               (fixtures.registration "signup") fixtures.freshRun))) =
    [SaveWebhookResult "signup" (fixtures.answer "http://c.example/hook" 500)
       CallStatusResponseError false].
Proof.
  split; [| split].
  - apply (proj1 (proj2 (proj2 (@pickResultCall_precedence fixtures.plainInterfaces
                                   fixtures.working)))); reflexivity.
  - apply (proj1 (proj2 (proj2 (proj2 (@pickResultCall_precedence
                                          fixtures.plainInterfaces fixtures.working))))
             (fixtures.registration "signup") fixtures.freshRun "signup"%string
             (fixtures.answer "http://c.example/hook" 500)
             CallStatusResponseError false).
    vm_compute. repeat first [left; reflexivity | right].
  - pose proof (proj2 (proj2 (proj2 (proj2 (@pickResultCall_precedence
                                          fixtures.plainInterfaces fixtures.working))))
                  (fixtures.registration "signup") fixtures.freshRun
                  {| Slug := "new-registration";
                     Subscribers := ["http://a.example/hook"; "http://b.example/hook";
                                     "http://c.example/hook"]%string |}
                  "{}"%string eq_refl eq_refl eq_refl) as H.
    assert (forall url,
              In url ["http://a.example/hook"; "http://b.example/hook";
                      "http://c.example/hook"]%string ->
              @http_NewRequest fixtures.plainInterfaces fixtures.working "POST" url "{}"
                = None) as Hreq.
    { intros url [<- | [<- | [<- | []]]]; reflexivity. }
    specialize (H Hreq
                  (fun session => ex_intro _ (fixtures.tableService fixtures.table)
                                    eq_refl)).
    apply (proj2 H (fixtures.answer "http://a.example/hook" 200)
             (fixtures.answer "http://b.example/hook" 410)
             (fixtures.answer "http://c.example/hook" 500));
      first [reflexivity | discriminate].
Defined.

(** C6.  When the slug of call_resthook names no resthook, [Execute] does
    nothing: it returns nil and the run (its events, its results, its
    scratch webhook value) is the one it was given. *)
Theorem resthook_unknown_noop {ifc : Interfaces} {RT : Runtime}
  (a : CallResthookAction) (run : FlowRun) :
  FindBySlug (cr_Resthook a) = None ->
  CallResthookAction_Execute a run = (run, Returns None).
Proof.
  intros H. pose proof (resthook_Execute_cases a run) as C.
  rewrite H in C. exact C.
Qed.

Lemma resthook_unknown_noop_witness :
  @CallResthookAction_Execute fixtures.plainInterfaces fixtures.working
    (fixtures.resthookAction "no-such-hook" "signup") fixtures.freshRun =
  (fixtures.freshRun, Returns None).
Proof.
  apply (@resthook_unknown_noop fixtures.plainInterfaces fixtures.working).
  reflexivity.
Defined.

(** *** The events of call_webhook *)

Section WebhookTrace.
Context {ifc : Interfaces} {RT : Runtime}.

Lemma onlyErrors_app (t u : list Effect) :
  forallb isErrorLog t = true -> forallb isErrorLog u = true ->
  forallb isErrorLog (t ++ u) = true.
Proof. intros Ht Hu. rewrite forallb_app, Ht, Hu. reflexivity. Qed.

(** The events of a trace of error events and nothing else name no call. *)
Lemma onlyErrors_calls (t : list Effect) :
  forallb isErrorLog t = true ->
  filter isWebhookCalled (eventsOf t) =
    map (webhookCalledFor false "") (responsesOf t) /\
  filter isResthookCalled (eventsOf t) = [].
Proof.
  intros H. destruct (onlyErrors_observed t H) as (_ & -> & _ & _ & -> & ->).
  split; reflexivity.
Qed.

(** [call] appends to the trace, and logs one [webhook_called], with the
    status of a plain webhook and no resthook, per answered call. *)
Lemma call_trace (a : CallWebhookAction) (url method body : string) (run : FlowRun) :
  exists new,
    run_trace (fst (call a url method body run)) = run_trace run ++ new /\
    filter isWebhookCalled (eventsOf new) =
      map (webhookCalledFor false "") (responsesOf new) /\
    filter isResthookCalled (eventsOf new) = [].
Proof.
  pose proof (call_cases a url method body run) as C.
  destruct (http_NewRequest method url body) as [e |].
  - rewrite C. exists []. simpl. rewrite app_nil_r. repeat split.
  - destruct C as (pre & req & Hpre & _ & C).
    destruct (engine.Webhook Services (extended run pre)) as [[svc |] [e |]].
    + rewrite C. exists (pre ++ [LogEvent (ErrorEvent e)]). simpl.
      rewrite app_assoc. split; [reflexivity |].
      apply onlyErrors_calls, onlyErrors_app; [assumption | reflexivity].
    + destruct C as (post & _ & Ht & _ & Hresp & Hrc & Hwc & _).
      eexists. split; [exact Ht |].
      destruct (onlyErrors_observed pre Hpre) as (_ & Hp2 & _ & _ & Hp5 & Hp6).
      change (ServiceCall req ?r :: post) with ([ServiceCall req r] ++ post).
      rewrite !eventsOf_app, !responsesOf_app, !filter_app, Hp2, Hp5, Hp6, Hrc, Hwc,
        Hresp.
      simpl. rewrite !app_nil_r. split; reflexivity.
    + rewrite C. exists (pre ++ [LogEvent (ErrorEvent e)]). simpl.
      rewrite app_assoc. split; [reflexivity |].
      apply onlyErrors_calls, onlyErrors_app; [assumption | reflexivity].
    + rewrite C. exists pre. split; [reflexivity |].
      apply onlyErrors_calls. assumption.
Qed.

Lemma webhook_Execute_trace (a : CallWebhookAction) (run : FlowRun) :
  exists new,
    run_trace (fst (CallWebhookAction_Execute a run)) = run_trace run ++ new /\
    filter isWebhookCalled (eventsOf new) =
      map (webhookCalledFor false "") (responsesOf new) /\
    filter isResthookCalled (eventsOf new) = [].
Proof.
  pose proof (webhook_Execute_cases a run) as C. cbv zeta in C.
  destruct (logged_extended (snd (EvaluateTemplate run (cw_URL a))) run)
    as (pre0 & E0 & H0).
  rewrite E0 in C.
  destruct (String.eqb (fst (EvaluateTemplate run (cw_URL a))) "").
  - rewrite C. eexists (pre0 ++ [_]). simpl. rewrite app_assoc.
    split; [reflexivity |].
    apply onlyErrors_calls, onlyErrors_app; [assumption | reflexivity].
  - destruct (isValidURL (fst (EvaluateTemplate run (cw_URL a)))).
    + destruct C as (pre & body & Hpre & ->).
      rewrite extended_extended.
      destruct (call_trace a (fst (EvaluateTemplate run (cw_URL a)))
                  (strings_ToUpper (cw_Method a)) body (extended run (pre0 ++ pre)))
        as (new & Ht & Hwc & Hrc).
      exists ((pre0 ++ pre) ++ new). simpl in Ht. rewrite Ht.
      split; [rewrite <- !app_assoc; reflexivity |].
      destruct (onlyErrors_observed (pre0 ++ pre) (onlyErrors_app _ _ H0 Hpre))
        as (_ & Hp2 & _ & _ & Hp5 & Hp6).
      rewrite (eventsOf_app (pre0 ++ pre) new), (responsesOf_app (pre0 ++ pre) new),
        !filter_app, Hp2, Hp5, Hp6, Hrc, Hwc.
      split; reflexivity.
    + rewrite C. eexists (pre0 ++ [_]). simpl. rewrite app_assoc.
      split; [reflexivity |].
      apply onlyErrors_calls, onlyErrors_app; [assumption | reflexivity].
Qed.

End WebhookTrace.

(** C3.  In every execution of call_webhook the [webhook_called] events are,
    in order, those of the calls the service answered, each with the status
    of the specification for its status code: connection_error for 0,
    success for 2xx, response_error for everything else. *)
Theorem webhook_called_status {ifc : Interfaces} {RT : Runtime}
  (a : CallWebhookAction) (run : FlowRun) :
  let new := appended run (fst (CallWebhookAction_Execute a run)) in
  filter isWebhookCalled (eventsOf new) =
    map (fun c => WebhookCalledEvent c (statusOfCode (StatusCode c)) "")
      (responsesOf new) /\
  (forall c : WebhookCall,
     callStatus c false =
       if StatusCode c =? 0 then CallStatusConnectionError
       else if (200 <=? StatusCode c) && (StatusCode c <=? 299) then CallStatusSuccess
       else CallStatusResponseError).
Proof.
  cbv zeta. split.
  - destruct (webhook_Execute_trace a run) as (new & Ht & Hwc & _).
    rewrite (appended_app _ _ _ Ht), Hwc.
    apply map_ext. intros c. unfold webhookCalledFor.
    rewrite callStatus_false. reflexivity.
  - intros c. rewrite callStatus_false. reflexivity.
Qed.

(** *** Subscribers that are gone *)

Section ResthookTrace.
Context {ifc : Interfaces} {RT : Runtime}.

(** Every execution of call_resthook logs one [webhook_called], with the
    status of a resthook call and the slug of the resthook, per answered
    call. *)
Lemma resthook_Execute_trace (a : CallResthookAction) (run : FlowRun) :
  let new := appended run (fst (CallResthookAction_Execute a run)) in
  filter isWebhookCalled (eventsOf new) =
    map (webhookCalledFor true (cr_Resthook a)) (responsesOf new).
Proof.
  cbv zeta.
  destruct (resthook_Execute_shape a run)
    as [E | (rh & payload & loop & out & _ & _ & _ & Hfacts & _ & E)].
  - rewrite E, appended_refl. reflexivity.
  - rewrite E, afterLoop_appended.
    destruct Hfacts as (_ & _ & _ & Hwc & _).
    change (LogEvent ?e :: ?t) with ([LogEvent e] ++ t).
    rewrite !eventsOf_app, !responsesOf_app, !filter_app, Hwc.
    assert (eventsOf match out with Next calls => resultEffects a calls | _ => [] end
            = [] /\
            responsesOf match out with Next calls => resultEffects a calls | _ => [] end
            = []) as [-> ->].
    { destruct out as [calls | |]; try (split; reflexivity).
      destruct (resultEffects_observed a calls) as (-> & _ & ->). split; reflexivity. }
    simpl. rewrite !app_nil_r. reflexivity.
Qed.

End ResthookTrace.

Lemma In_webhookCalled (e : Event) (es : list Event) (f : WebhookCall -> Event)
  (cs : list WebhookCall) :
  filter isWebhookCalled es = map f cs ->
  In e es -> isWebhookCalled e = true -> exists c, In c cs /\ e = f c.
Proof.
  intros Heq Hin Hw.
  assert (In e (filter isWebhookCalled es)) as H by (apply filter_In; auto).
  rewrite Heq in H. apply in_map_iff in H as (c & <- & Hc). eauto.
Qed.

(** C8.  A call made by call_webhook is never recorded as subscriber_gone: a
    410 there is a response_error.  The status subscriber_gone is that of a
    410 answered to a call made for a resthook: [call_webhook] logs its
    events with [callStatus call false] and no resthook, [call_resthook]
    with [callStatus call true] and its slug. *)
Theorem subscriber_gone_only_for_resthooks {ifc : Interfaces} {RT : Runtime} :
  (forall (c : WebhookCall) (isResthook : bool),
     callStatus c isResthook = CallStatusSubscriberGone <->
     isResthook = true /\ StatusCode c = 410) /\
  (forall c : WebhookCall,
     StatusCode c = 410 -> callStatus c false = CallStatusResponseError) /\
  (forall (a : CallWebhookAction) (run : FlowRun) (c : WebhookCall)
          (status : CallStatus) (resthook : string),
     In (WebhookCalledEvent c status resthook)
        (eventsOf (appended run (fst (CallWebhookAction_Execute a run)))) ->
     status = callStatus c false /\ status <> CallStatusSubscriberGone /\
     resthook = ""%string) /\
  (forall (a : CallResthookAction) (run : FlowRun) (c : WebhookCall)
          (status : CallStatus) (resthook : string),
     In (WebhookCalledEvent c status resthook)
        (eventsOf (appended run (fst (CallResthookAction_Execute a run)))) ->
     status = callStatus c true /\ resthook = cr_Resthook a).
Proof.
  split; [exact callStatus_gone |]. split; [| split].
  - intros c H. unfold callStatus. rewrite H. reflexivity.
  - intros a run c status resthook Hin.
    destruct (webhook_Execute_trace a run) as (new & Ht & Hwc & _).
    rewrite (appended_app _ _ _ Ht) in Hin.
    destruct (In_webhookCalled _ _ _ _ Hwc Hin eq_refl) as (c' & _ & E).
    injection E as -> -> ->.
    split; [reflexivity |]. split; [| reflexivity].
    intros G. apply callStatus_gone in G as [G _]. discriminate.
  - intros a run c status resthook Hin.
    destruct (In_webhookCalled _ _ _ _ (resthook_Execute_trace a run) Hin eq_refl)
      as (c' & _ & E).
    injection E as -> -> ->. split; reflexivity.
Qed.

Lemma subscriber_gone_only_for_resthooks_witness :
  callStatus (fixtures.answer "http://b.example/hook" 410) false =
    CallStatusResponseError /\
  CallStatusResponseError =
    callStatus (fixtures.answer "http://b.example/hook" 410) false /\
  CallStatusSubscriberGone =
    callStatus (fixtures.answer "http://b.example/hook" 410) true.
Proof.
  split; [| split].
  - apply (proj1 (proj2 (@subscriber_gone_only_for_resthooks fixtures.plainInterfaces
                           fixtures.working))).
    reflexivity.
  - apply (proj1 (proj2 (proj2 (@subscriber_gone_only_for_resthooks
                                   fixtures.plainInterfaces fixtures.working)))
             (fixtures.webhookAction "http://b.example/hook" "gone") fixtures.freshRun
             (fixtures.answer "http://b.example/hook" 410) CallStatusResponseError
             ""%string).
    vm_compute. repeat first [left; reflexivity | right].
  - apply (proj2 (proj2 (proj2 (@subscriber_gone_only_for_resthooks
                                   fixtures.plainInterfaces fixtures.working)))
             (fixtures.registration "signup") fixtures.freshRun
             (fixtures.answer "http://b.example/hook" 410) CallStatusSubscriberGone
             "new-registration"%string).
    vm_compute. repeat first [left; reflexivity | right].
Defined.

(** *** The whole of an execution of call_webhook *)

Section WebhookExplicit.
Context {ifc : Interfaces} {RT : Runtime}.

Lemma appended_extended (run : FlowRun) (t : list Effect) :
  appended run (extended run t) = t.
Proof. apply appended_app. reflexivity. Qed.

Lemma headerInsert_keys (key value : string) (h : list (string * string)) :
  Permutation (map fst (headerInsert key value h)) (key :: map fst h).
Proof.
  induction h as [| [k v] h IH]; simpl.
  - apply Permutation_refl.
  - destruct (String.ltb key k); simpl.
    + apply Permutation_refl.
    + apply perm_trans with (k :: key :: map fst h).
      * apply perm_skip. exact IH.
      * apply perm_swap.
Qed.

(** The header loop adds the keys of the map, each made canonical. *)
Lemma addHeaders_keys (headers : list (string * string)) :
  forall req run,
  exists req',
    snd (addHeaders headers req run) = Next req' /\
    Permutation (map fst (req_header req'))
      (map fst (req_header req) ++
       map (fun kv => textproto.CanonicalMIMEHeaderKey (fst kv)) headers).
Proof.
  induction headers as [| [key value] rest IH]; intros req run; simpl.
  - exists req. rewrite app_nil_r. split; [reflexivity | apply Permutation_refl].
  - unfold bind, run_EvaluateTemplate.
    destruct (EvaluateTemplate run value) as [headerValue err].
    rewrite logIfError_logged.
    destruct (IH (Header_Add req key headerValue) (logged err run))
      as (req' & E & Hkeys).
    exists req'. split; [exact E |].
    apply (perm_trans Hkeys). simpl.
    apply perm_trans with
      ((textproto.CanonicalMIMEHeaderKey key :: map fst (req_header req)) ++
       map (fun kv => textproto.CanonicalMIMEHeaderKey (fst kv)) rest).
    + apply Permutation_app_tail. apply headerInsert_keys.
    + simpl. apply Permutation_middle.
Qed.

(** [call] once the request is built: header errors, then the outcome of
    resolving the service and, with a service, the effects of its call. *)
Lemma call_explicit (a : CallWebhookAction) (url method body : string) (run : FlowRun) :
  http_NewRequest method url body = None ->
  exists pre req,
    forallb isErrorLog pre = true /\
    (req_url req = url /\ req_method req = method /\ req_body req = body /\
     Permutation (map fst (req_header req))
       (map (fun kv => textproto.CanonicalMIMEHeaderKey (fst kv)) (cw_Headers a))) /\
    call a url method body run =
      match engine.Webhook Services (extended run pre) with
      | (_, Some e) => (extended run (pre ++ [LogEvent (ErrorEvent e)]), Returns None)
      | (None, None) => (extended run pre, Panics)
      | (Some svc, None) =>
          let r := Call svc (extended run pre) req in
          ({| run_webhook :=
                match fst r with Some c => webhookOf c | None => run_webhook run end;
              run_trace := run_trace run ++ pre ++ callEffects a req r |},
           Returns None)
      end.
Proof.
  intros Hreq. unfold call, NewRequest. rewrite Hreq. unfold func, bind.
  destruct (addHeaders_spec (cw_Headers a)
              {| req_method := method; req_url := url; req_header := [];
                 req_body := body |} run)
    as (pre & req & E & Hpre & Hurl & Hm & Hb).
  destruct (addHeaders_keys (cw_Headers a)
              {| req_method := method; req_url := url; req_header := [];
                 req_body := body |} run) as (req' & E' & Hkeys).
  rewrite E in E' |- *. simpl in E'. injection E' as <-.
  fold (extended run pre).
  exists pre, req. split; [exact Hpre |]. split; [auto |].
  unfold resolveWebhook.
  destruct (engine.Webhook Services (extended run pre)) as [[svc |] [e |]];
    cbv beta iota.
  - simpl. unfold extended, emit. simpl. rewrite <- ?app_assoc. reflexivity.
  - unfold svc_Call. cbv zeta. unfold callEffects, webhookOf.
    destruct (Call svc (extended run pre) req) as [[c |] err];
      rewrite logIfError_logged; unfold logEvent, run_SetWebhook, saveWebhookResult;
      destruct err as [e |]; simpl;
      try (destruct (String.eqb (cw_ResultName a) "")); simpl; unfold emit; simpl;
      rewrite <- ?app_assoc; simpl; rewrite ?app_nil_r; reflexivity.
  - simpl. unfold extended, emit. simpl. rewrite <- ?app_assoc. reflexivity.
  - reflexivity.
Qed.

Lemma runAtCall_extended (a : CallWebhookAction) (run : FlowRun) :
  exists pre, runAtCall a run = extended run pre /\ forallb isErrorLog pre = true.
Proof.
  unfold runAtCall. cbv zeta.
  destruct (logged_extended (snd (EvaluateTemplate run (cw_URL a))) run)
    as (pre0 & -> & H0).
  destruct (String.eqb (cw_Body a) "").
  - exists pre0. split; [reflexivity | exact H0].
  - destruct (logged_extended
                (snd (EvaluateTemplate (extended run pre0) (cw_Body a)))
                (extended run pre0)) as (pre1 & -> & H1).
    exists (pre0 ++ pre1). rewrite extended_extended.
    split; [reflexivity |]. rewrite forallb_app, H0, H1. reflexivity.
Qed.

Lemma runAtCall_logged (a : CallWebhookAction) (run : FlowRun) :
  exists pre,
    runAtCall a run =
      extended (logged (snd (EvaluateTemplate run (cw_URL a))) run) pre /\
    forallb isErrorLog pre = true.
Proof.
  unfold runAtCall. cbv zeta.
  destruct (String.eqb (cw_Body a) "").
  - exists []. unfold extended. rewrite app_nil_r.
    destruct (logged _ run). split; reflexivity.
  - apply logged_extended.
Qed.

(** [Execute] of call_webhook with a usable URL is [call] on the evaluated
    URL, the upper-cased method and the evaluated body. *)
Lemma webhook_Execute_call (a : CallWebhookAction) (run : FlowRun) :
  let url := fst (EvaluateTemplate run (cw_URL a)) in
  String.eqb url "" = false -> isValidURL url = true ->
  CallWebhookAction_Execute a run =
    call a url (strings_ToUpper (cw_Method a))
      (evaluatedBody a (logged (snd (EvaluateTemplate run (cw_URL a))) run))
      (runAtCall a run).
Proof.
  cbv zeta. intros Hne Hvalid.
  unfold CallWebhookAction_Execute, func, bind, run_EvaluateTemplate, evaluatedBody,
    runAtCall.
  destruct (EvaluateTemplate run (cw_URL a)) as [url err]. simpl fst in *. simpl snd in *.
  rewrite logIfError_logged, Hne, Hvalid. cbv beta iota delta [negb].
  destruct (String.eqb (cw_Body a) "").
  - unfold ret, return_call.
    destruct (call a url _ _ (logged err run)) as [run' [e |]]; reflexivity.
  - destruct (EvaluateTemplate (logged err run) (cw_Body a)) as [body berr].
    rewrite logIfError_logged. unfold ret, return_call. simpl fst. simpl snd.
    destruct (call a url _ body _) as [run' [e |]]; reflexivity.
Qed.

(** Every execution of call_webhook: error events [pre], then one of five
    ends. *)
Lemma webhook_Execute_explicit (a : CallWebhookAction) (run : FlowRun) :
  let url := fst (EvaluateTemplate run (cw_URL a)) in
  let method := strings_ToUpper (cw_Method a) in
  let body := evaluatedBody a (logged (snd (EvaluateTemplate run (cw_URL a))) run) in
  let res := CallWebhookAction_Execute a run in
  exists pre,
    forallb isErrorLog pre = true /\
    if negb (String.eqb url "") && isValidURL url then
      match http_NewRequest method url body with
      | Some e => res = (extended run pre, Returns (Some e))
      | None =>
          exists req,
            (req_url req = url /\ req_method req = method /\ req_body req = body /\
             Permutation (map fst (req_header req))
       (map (fun kv => textproto.CanonicalMIMEHeaderKey (fst kv)) (cw_Headers a))) /\
            res =
              match engine.Webhook Services (extended run pre) with
              | (_, Some e) =>
                  (extended run (pre ++ [LogEvent (ErrorEvent e)]), Returns None)
              | (None, None) => (extended run pre, Panics)
              | (Some svc, None) =>
                  let r := Call svc (extended run pre) req in
                  ({| run_webhook :=
                        match fst r with
                        | Some c => webhookOf c
                        | None => run_webhook run
                        end;
                      run_trace := run_trace run ++ pre ++ callEffects a req r |},
                   Returns None)
              end
      end
    else res = (extended run pre, Returns None).
Proof.
  cbv zeta.
  destruct (String.eqb (fst (EvaluateTemplate run (cw_URL a))) "") eqn:Hne; simpl.
  - pose proof (webhook_Execute_cases a run) as C. cbv zeta in C. rewrite Hne in C.
    destruct (logged_extended (snd (EvaluateTemplate run (cw_URL a))) run)
      as (pre0 & E0 & H0).
    rewrite C, E0. eexists (pre0 ++ [_]). split; cycle 1.
    + unfold emit, extended. simpl. rewrite <- app_assoc. reflexivity.
    + rewrite forallb_app, H0. reflexivity.
  - destruct (isValidURL (fst (EvaluateTemplate run (cw_URL a)))) eqn:Hvalid.
    + rewrite (webhook_Execute_call a run Hne Hvalid).
      destruct (runAtCall_extended a run) as (pre1 & -> & H1).
      destruct (http_NewRequest _ _ _) as [e |] eqn:Hreq.
      * exists pre1. split; [exact H1 |].
        pose proof (call_cases a (fst (EvaluateTemplate run (cw_URL a)))
                      (strings_ToUpper (cw_Method a))
                      (evaluatedBody a
                         (logged (snd (EvaluateTemplate run (cw_URL a))) run))
                      (extended run pre1)) as K.
        rewrite Hreq in K. exact K.
      * destruct (call_explicit a _ _ _ (extended run pre1) Hreq)
          as (pre & req & Hpre & Hshape & ->).
        exists (pre1 ++ pre). split; [rewrite forallb_app, H1, Hpre; reflexivity |].
        exists req. split; [exact Hshape |].
        rewrite !extended_extended.
        destruct (engine.Webhook Services (extended run (pre1 ++ pre)))
          as [[svc |] [e |]];
          unfold extended; simpl; rewrite <- ?app_assoc; reflexivity.
    + pose proof (webhook_Execute_cases a run) as C. cbv zeta in C.
      rewrite Hne, Hvalid in C.
      destruct (logged_extended (snd (EvaluateTemplate run (cw_URL a))) run)
        as (pre0 & E0 & H0).
      rewrite C, E0. eexists (pre0 ++ [_]). split; cycle 1.
      * unfold emit, extended. simpl. rewrite <- app_assoc. reflexivity.
      * rewrite forallb_app, H0. reflexivity.
Qed.

End WebhookExplicit.

(** *** Guards of call_webhook and unresolved services *)

(** C4.  With [url] and [err] the evaluation of the URL template of
    call_webhook: when [url] is empty or not a valid URL, [Execute] logs the
    evaluation error if there is one, then one more error event, and returns
    nil, with no request handed to the service, no [webhook_called] event and
    the scratch webhook value untouched.  An evaluation error alone does not
    stop the action: with a non-empty valid URL, the request of the action
    (its method in upper case, that URL, its evaluated body) accepted by
    [http.NewRequest] and a service that resolves, the error is logged first
    and the service is still called on that URL. *)
Theorem webhook_url_guard {ifc : Interfaces} {RT : Runtime}
  (a : CallWebhookAction) (run : FlowRun) :
  let url := fst (EvaluateTemplate run (cw_URL a)) in
  let err := snd (EvaluateTemplate run (cw_URL a)) in
  let res := CallWebhookAction_Execute a run in
  let new := appended run (fst res) in
  (url = ""%string \/ isValidURL url = false ->
   snd res = Returns None /\
   run_webhook (fst res) = run_webhook run /\
   (exists msg,
      new = match err with Some e => [LogEvent (ErrorEvent e)] | None => [] end ++
            [LogEvent (ErrorEvent msg)]) /\
   requestsOf new = [] /\
   filter isWebhookCalled (eventsOf new) = []) /\
  (forall (e : error) (svc : WebhookService),
     err = Some e -> url <> ""%string -> isValidURL url = true ->
     http_NewRequest (strings_ToUpper (cw_Method a)) url
       (evaluatedBody a (logged err run)) = None ->
     (forall session, engine.Webhook Services session = (Some svc, None)) ->
     snd res = Returns None /\
     exists rest req answer,
       new = LogEvent (ErrorEvent e) :: rest /\
       In (ServiceCall req answer) rest /\ req_url req = url).
Proof.
  cbv zeta.
  pose proof (webhook_Execute_cases a run) as C. cbv zeta in C.
  destruct (EvaluateTemplate run (cw_URL a)) as [url err] eqn:Eeval.
  simpl fst in *. simpl snd in *.
  split.
  - intros Hbad.
    assert (exists msg,
              CallWebhookAction_Execute a run =
                (emit (LogEvent (ErrorEvent msg)) (logged err run), Returns None))
      as [msg ->].
    { destruct (String.eqb_spec url "") as [-> | Hne].
      - eauto.
      - destruct Hbad as [-> | Hinv]; [contradiction |]. rewrite Hinv in C. eauto. }
    assert (appended run (emit (LogEvent (ErrorEvent msg)) (logged err run)) =
            match err with Some e => [LogEvent (ErrorEvent e)] | None => [] end ++
            [LogEvent (ErrorEvent msg)]) as Happ.
    { apply appended_app. destruct err; simpl; rewrite <- ?app_assoc; reflexivity. }
    simpl fst. simpl snd. rewrite Happ.
    split; [reflexivity |]. split; [destruct err; reflexivity |].
    split; [exists msg; reflexivity |].
    destruct err; split; reflexivity.
  - intros e svc -> Hne Hvalid Hreq Hsvc.
    apply String.eqb_neq in Hne.
    pose proof (webhook_Execute_call a run) as K. cbv zeta in K.
    rewrite Eeval in K. simpl fst in K. simpl snd in K.
    rewrite (K Hne Hvalid).
    destruct (runAtCall_logged a run) as (pre & Hrun & Hpre).
    rewrite Eeval in Hrun. simpl snd in Hrun. rewrite Hrun.
    destruct (call_explicit a url (strings_ToUpper (cw_Method a))
                (evaluatedBody a (logged (Some e) run))
                (extended (logged (Some e) run) pre) Hreq)
      as (pre' & req & Hpre' & (Hurl & _) & ->).
    rewrite Hsvc. cbv zeta. simpl fst. simpl snd.
    split; [reflexivity |].
    exists (pre ++ pre' ++
            callEffects a req
              (Call svc (extended (extended (logged (Some e) run) pre) pre') req)),
      req, (Call svc (extended (extended (logged (Some e) run) pre) pre') req).
    split; [| split; [| exact Hurl]].
    + apply appended_app. simpl. rewrite <- !app_assoc. reflexivity.
    + apply in_or_app. right. apply in_or_app. right. left. reflexivity.
Qed.

Lemma webhook_url_guard_witness :
  (snd (@CallWebhookAction_Execute fixtures.plainInterfaces fixtures.working
          (fixtures.webhookAction "@missing" "lookup") fixtures.freshRun) =
     Returns None /\
   snd (@CallWebhookAction_Execute fixtures.plainInterfaces fixtures.working
          (fixtures.webhookAction "not a url" "lookup") fixtures.freshRun) =
     Returns None) /\
  snd (@CallWebhookAction_Execute fixtures.plainInterfaces fixtures.working
         (fixtures.webhookAction "@(bad)" "lookup") fixtures.freshRun) =
    Returns None.
Proof.
  split; [split |].
  - apply (proj1 (@webhook_url_guard fixtures.plainInterfaces fixtures.working
                    (fixtures.webhookAction "@missing" "lookup") fixtures.freshRun)).
    left. reflexivity.
  - apply (proj1 (@webhook_url_guard fixtures.plainInterfaces fixtures.working
                    (fixtures.webhookAction "not a url" "lookup") fixtures.freshRun)).
    right. reflexivity.
  - apply (proj2 (@webhook_url_guard fixtures.plainInterfaces fixtures.working
                    (fixtures.webhookAction "@(bad)" "lookup") fixtures.freshRun)
             "bad is not defined"%string (fixtures.tableService fixtures.table)).
    + reflexivity.
    + discriminate.
    + reflexivity.
    + reflexivity.
    + reflexivity.
Defined.

(** C7.  Every factory of the empty registry gives a nil service and an
    error.  When resolving the webhook service gives an error, call_webhook
    (once its URL is usable and [http.NewRequest] has accepted its method,
    URL and body) and call_resthook (at its first subscriber) log that error
    as an event and return nil, without having called any service. *)
Theorem empty_services_fail_gracefully {ifc : Interfaces} :
  (forall (session : Session) (classifier : Classifier) (ticketer : Ticketer)
          (externalService : ExternalService) (msgCatalog : MsgCatalog),
     engine.Email engine.newEmptyServices session =
       (None, Some "no email service factory configured"%string) /\
     engine.Webhook engine.newEmptyServices session =
       (None, Some "no webhook service factory configured"%string) /\
     engine.Classification engine.newEmptyServices session classifier =
       (None, Some "no classification service factory configured"%string) /\
     engine.Ticket engine.newEmptyServices session ticketer =
       (None, Some "no ticket service factory configured"%string) /\
     engine.Airtime engine.newEmptyServices session =
       (None, Some "no airtime service factory configured"%string) /\
     engine.ExternalService engine.newEmptyServices session externalService =
       (None, Some "no external service factory configured"%string) /\
     engine.MsgCatalog engine.newEmptyServices session msgCatalog =
       (None, Some "no external service factory configured"%string)) /\
  (forall (RT : Runtime) (a : CallWebhookAction) (run : FlowRun) (e : error),
     let url := fst (EvaluateTemplate run (cw_URL a)) in
     let res := CallWebhookAction_Execute a run in
     url <> ""%string -> isValidURL url = true ->
     http_NewRequest (strings_ToUpper (cw_Method a)) url
       (evaluatedBody a (logged (snd (EvaluateTemplate run (cw_URL a))) run)) = None ->
     (forall session, snd (engine.Webhook Services session) = Some e) ->
     snd res = Returns None /\
     run_webhook (fst res) = run_webhook run /\
     exists pre,
       appended run (fst res) = pre ++ [LogEvent (ErrorEvent e)] /\
       forallb isErrorLog pre = true /\
       requestsOf (appended run (fst res)) = []) /\
  (forall (RT : Runtime) (a : CallResthookAction) (run : FlowRun) (rh : Resthook)
          (payload url : string) (rest : list string) (e : error),
     FindBySlug (cr_Resthook a) = Some rh ->
     EvaluateTemplate run ResthookPayload = (payload, None) ->
     json_Valid payload = true ->
     Subscribers rh = url :: rest ->
     http_NewRequest "POST" url payload = None ->
     (forall session, snd (engine.Webhook Services session) = Some e) ->
     CallResthookAction_Execute a run =
       (extended run [LogEvent (ResthookCalledEvent (cr_Resthook a) payload);
                      LogEvent (ErrorEvent e)],
        Returns None)).
Proof.
  split; [intros; repeat split |]. split.
  - intros RT a run e url res Hne Hvalid Hreq Hsvc. subst url res.
    destruct (webhook_Execute_explicit a run) as (pre & Hpre & C). cbv zeta in C.
    apply String.eqb_neq in Hne. rewrite Hne, Hvalid, Hreq in C. simpl in C.
    destruct C as (req & _ & ->).
    specialize (Hsvc (extended run pre)).
    destruct (engine.Webhook Services (extended run pre)) as [svc [e' |]];
      [| destruct svc; discriminate].
    simpl in Hsvc. injection Hsvc as ->.
    assert (forall pair : FlowRun * Completion,
              match svc with Some _ | _ => pair end = pair) as Hsame
      by (intros pair; destruct svc; reflexivity).
    rewrite Hsame.
    simpl fst. simpl snd. rewrite appended_extended.
    split; [reflexivity |]. split; [reflexivity |].
    exists pre. split; [reflexivity |]. split; [exact Hpre |].
    apply (onlyErrors_observed (pre ++ [LogEvent (ErrorEvent e)])).
    apply onlyErrors_app; [exact Hpre | reflexivity].
  - intros RT a run rh payload url rest e Hfind Heval Hvalid Hsubs Hreq Hsvc.
    pose proof (resthook_Execute_cases a run) as C.
    rewrite Hfind, Heval in C. simpl in C. rewrite Hvalid, Hsubs in C. rewrite C.
    simpl. unfold NewRequest. rewrite Hreq. unfold bind, resolveWebhook.
    specialize (Hsvc (emit (LogEvent (ResthookCalledEvent (cr_Resthook a) payload)) run)).
    destruct (engine.Webhook Services _) as [svc [e' |]]; [| destruct svc; discriminate].
    simpl in Hsvc. injection Hsvc as ->.
    simpl. unfold extended, emit. simpl. rewrite <- ?app_assoc. reflexivity.
Qed.

Lemma empty_services_fail_gracefully_witness :
  snd (@CallWebhookAction_Execute fixtures.plainInterfaces fixtures.unconfigured
         (fixtures.webhookAction "http://a.example/hook" "lookup") fixtures.freshRun) =
    Returns None /\
  @CallResthookAction_Execute fixtures.plainInterfaces fixtures.unconfigured
    (fixtures.registration "signup") fixtures.freshRun =
    (@extended fixtures.plainInterfaces fixtures.freshRun
       [LogEvent (ResthookCalledEvent "new-registration" "{}");
        LogEvent (ErrorEvent "no webhook service factory configured")],
     Returns None).
Proof.
  split.
  - apply (proj1 (proj2 (@empty_services_fail_gracefully fixtures.plainInterfaces))
             fixtures.unconfigured
             (fixtures.webhookAction "http://a.example/hook" "lookup") fixtures.freshRun
             "no webhook service factory configured"%string).
    + discriminate.
    + reflexivity.
    + reflexivity.
    + reflexivity.
  - apply (proj2 (proj2 (@empty_services_fail_gracefully fixtures.plainInterfaces))
             fixtures.unconfigured (fixtures.registration "signup") fixtures.freshRun
             {| Slug := "new-registration";
                Subscribers := ["http://a.example/hook"; "http://b.example/hook";
                                "http://c.example/hook"]%string |}
             "{}"%string "http://a.example/hook"%string
             ["http://b.example/hook"; "http://c.example/hook"]%string
             "no webhook service factory configured"%string);
      reflexivity.
Defined.

(** *** Leaving the subscriber loop early, and the scratch webhook value *)

Section LoopSplit.
Context {ifc : Interfaces} {RT : Runtime}.

(** The loop over [done ++ more] is the loop over [done] followed, unless it
    was left early, by the loop over [more]. *)
Lemma callSubscribers_app (a : CallResthookAction) (payload : string)
  (done more : list string) :
  forall calls run,
    callSubscribers a payload (done ++ more) calls run =
    bind (callSubscribers a payload done calls) (callSubscribers a payload more) run.
Proof.
  induction done as [| url done IH]; intros calls run.
  - reflexivity.
  - simpl. destruct (NewRequest "POST" url payload) as [[req |] [err |]];
      try reflexivity.
    unfold bind in IH |- *. unfold resolveWebhook.
    destruct (engine.Webhook Services run) as [[svc |] [err |]]; try reflexivity.
    unfold svc_Call. cbv zeta.
    destruct (Call svc run _) as [[call |] err]; rewrite logIfError_logged;
      unfold logEvent; apply IH.
Qed.

End LoopSplit.

Lemma requestsOf_responsesOf {ifc : Interfaces} (t : list Effect) :
  requestsOf t = [] -> responsesOf t = [].
Proof.
  induction t as [| eff t IH]; [reflexivity |].
  destruct eff; simpl; try exact IH. discriminate.
Qed.

(** C9.  When, after the subscribers [done] were visited, building the
    request for the next subscriber [url] fails, or resolving the webhook
    service for it fails, call_resthook logs the error and returns nil on the
    spot: the requests made are exactly those for [done] (neither [url] nor
    the subscribers after it are contacted), no result is saved whatever the
    result name, and the scratch webhook value is left as it was. *)
Theorem resthook_abort_on_subscriber_failure {ifc : Interfaces} {RT : Runtime}
  (a : CallResthookAction) (run run2 : FlowRun) (rh : Resthook) (payload url : string)
  (done rest : list string) (calls : list WebhookCall) (e : error) :
  FindBySlug (cr_Resthook a) = Some rh ->
  EvaluateTemplate run ResthookPayload = (payload, None) ->
  json_Valid payload = true ->
  Subscribers rh = done ++ url :: rest ->
  callSubscribers a payload done []
    (emit (LogEvent (ResthookCalledEvent (cr_Resthook a) payload)) run) =
    (run2, Next calls) ->
  http_NewRequest "POST" url payload = Some e \/
  (http_NewRequest "POST" url payload = None /\
   snd (engine.Webhook Services run2) = Some e) ->
  let res := CallResthookAction_Execute a run in
  let new := appended run (fst res) in
  res = (emit (LogEvent (ErrorEvent e)) run2, Returns None) /\
  (exists pre, new = pre ++ [LogEvent (ErrorEvent e)]) /\
  map req_url (requestsOf new) = done /\
  savesOf new = [] /\
  webhooksSet new = [] /\
  run_webhook (fst res) = run_webhook run.
Proof.
  intros Hfind Heval Hvalid Hsubs Hdone Hfail. cbv zeta.
  pose proof (resthook_Execute_cases a run) as C.
  rewrite Hfind, Heval in C. simpl in C. rewrite Hvalid, Hsubs in C.
  rewrite callSubscribers_app in C. unfold bind in C. rewrite Hdone in C.
  assert (callSubscribers a payload (url :: rest) calls run2 =
          (emit (LogEvent (ErrorEvent e)) run2, Returned None)) as Hstop.
  { simpl. unfold NewRequest.
    destruct Hfail as [-> | [-> Hsvc]]; [reflexivity |].
    unfold bind, resolveWebhook.
    destruct (engine.Webhook Services run2) as [svc [e' |]]; [| discriminate].
    simpl in Hsvc. injection Hsvc as ->. reflexivity. }
  rewrite Hstop in C. simpl in C. rewrite C. simpl fst.
  split; [reflexivity |].
  pose proof (callSubscribers_spec a payload done []
                (emit (LogEvent (ResthookCalledEvent (cr_Resthook a) payload)) run)) as L.
  rewrite Hdone in L.
  destruct L as (loop & Ht & Hw & Hs & Hset & _ & _ & _ & Hurls). simpl in Ht, Hw, Hurls.
  assert (appended run (emit (LogEvent (ErrorEvent e)) run2) =
          (LogEvent (ResthookCalledEvent (cr_Resthook a) payload) :: loop) ++
          [LogEvent (ErrorEvent e)]) as ->.
  { apply appended_app. simpl. rewrite Ht. simpl. rewrite <- !app_assoc. reflexivity. }
  split; [eexists; reflexivity |].
  rewrite requestsOf_app, savesOf_app, webhooksSet_app, map_app. simpl.
  rewrite Hurls, Hs, Hset, app_nil_r.
  repeat split. exact Hw.
Qed.

Lemma resthook_abort_on_subscriber_failure_witness :
  @CallResthookAction_Execute fixtures.plainInterfaces fixtures.working
    (fixtures.resthookAction "broken" "signup") fixtures.freshRun =
  (@emit fixtures.plainInterfaces (LogEvent (ErrorEvent "invalid URL"))
     (fst (@callSubscribers fixtures.plainInterfaces fixtures.working
             (fixtures.resthookAction "broken" "signup") "{}"
             ["http://a.example/hook"%string] []
             (@emit fixtures.plainInterfaces
                (LogEvent (ResthookCalledEvent "broken" "{}")) fixtures.freshRun))),
   Returns None).
Proof.
  apply (@resthook_abort_on_subscriber_failure fixtures.plainInterfaces fixtures.working
           (fixtures.resthookAction "broken" "signup") fixtures.freshRun _
           {| Slug := "broken";
              Subscribers := ["http://a.example/hook"; "not a url";
                              "http://c.example/hook"]%string |}
           "{}"%string "not a url"%string ["http://a.example/hook"%string]
           ["http://c.example/hook"%string]
           [fixtures.answer "http://a.example/hook" 200] "invalid URL"%string).
  - reflexivity.
  - reflexivity.
  - reflexivity.
  - reflexivity.
  - reflexivity.
  - left. reflexivity.
Defined.

(** C10.  In every execution of call_resthook, if no subscriber call gave a
    call back, the scratch webhook value is the one the run had and
    [SetWebhook] is not called; [SetWebhook] is only ever called with the
    parsed response of the call [pickResultCall] chose among the calls given
    back; and a resthook without subscribers is such a case. *)
Theorem resthook_webhook_scratch {ifc : Interfaces} {RT : Runtime}
  (a : CallResthookAction) (run : FlowRun) :
  let res := CallResthookAction_Execute a run in
  let new := appended run (fst res) in
  (responsesOf new = [] ->
   run_webhook (fst res) = run_webhook run /\ webhooksSet new = []) /\
  (forall v : XValue,
     In (SetWebhook v) new ->
     exists c, pickResultCall (responsesOf new) = Some c /\
               v = JSONToXValue (ExtractResponseJSON (Response c))) /\
  (forall rh : Resthook,
     FindBySlug (cr_Resthook a) = Some rh -> Subscribers rh = [] ->
     responsesOf new = []).
Proof.
  cbv zeta.
  destruct (resthook_Execute_shape a run)
    as [E | (rh & payload & loop & out & Hfind & _ & _ & Hfacts & Hloop & E)].
  - rewrite E, appended_refl. split; [split; reflexivity |].
    split; [intros v [] | reflexivity].
  - cbv zeta in Hfind, Hloop, E. rewrite E, afterLoop_appended, afterLoop_webhook.
    destruct Hfacts as (_ & Hset & _ & _ & Hout).
    assert (responsesOf
              (LogEvent (ResthookCalledEvent (cr_Resthook a) payload)
               :: loop ++ match out with Next calls => resultEffects a calls | _ => [] end)
            = responsesOf loop) as ->.
    { simpl. rewrite responsesOf_app.
      destruct out as [calls | |]; simpl; rewrite ?app_nil_r; try reflexivity.
      destruct (resultEffects_observed a calls) as (_ & _ & ->).
      apply app_nil_r. }
    split; [| split].
    + intros Hnone. simpl. rewrite webhooksSet_app, Hset. simpl.
      destruct out as [calls | |]; try (split; reflexivity).
      destruct Hout as [-> _]. simpl. rewrite Hnone. simpl.
      unfold resultEffects. simpl.
      destruct (String.eqb (cr_ResultName a) ""); split; reflexivity.
    + intros v [Hin | Hin]; [discriminate |].
      apply in_app_or in Hin as [Hin | Hin].
      { apply In_webhooksSet in Hin. rewrite Hset in Hin. contradiction. }
      destruct out as [calls | |]; try contradiction.
      destruct Hout as [-> _]. simpl in Hin |- *.
      unfold resultEffects in Hin.
      destruct (pickResultCall (responsesOf loop)) as [c |].
      * exists c. split; [reflexivity |].
        destruct Hin as [Hin | Hin]; [injection Hin as <-; reflexivity |].
        destruct (String.eqb (cr_ResultName a) ""); simpl in Hin.
        -- contradiction.
        -- destruct Hin as [Hin | []]. discriminate.
      * destruct (String.eqb (cr_ResultName a) ""); simpl in Hin.
        -- contradiction.
        -- destruct Hin as [Hin | []]. discriminate.
    + intros rh' Hfind' Hnone. rewrite Hfind in Hfind'. injection Hfind' as <-.
      rewrite Hnone in Hloop. simpl in Hloop. unfold ret in Hloop.
      injection Hloop as Hrun _.
      assert (loop = []) as ->; [| reflexivity].
      rewrite <- app_nil_r in Hrun at 1. apply app_inv_head in Hrun. congruence.
Qed.

Lemma resthook_webhook_scratch_witness :
  run_webhook
    (fst (@CallResthookAction_Execute fixtures.plainInterfaces fixtures.working
            (fixtures.resthookAction "nobody" "signup") fixtures.freshRun)) =
    "null"%string /\
  responsesOf
    (appended fixtures.freshRun
       (fst (@CallResthookAction_Execute fixtures.plainInterfaces fixtures.working
               (fixtures.resthookAction "nobody" "signup") fixtures.freshRun))) = [].
Proof.
  split.
  - apply (proj1 (@resthook_webhook_scratch fixtures.plainInterfaces fixtures.working
                    (fixtures.resthookAction "nobody" "signup") fixtures.freshRun)).
    reflexivity.
  - apply (proj2 (proj2 (@resthook_webhook_scratch fixtures.plainInterfaces
                           fixtures.working
                           (fixtures.resthookAction "nobody" "signup")
                           fixtures.freshRun))
             {| Slug := "nobody"; Subscribers := [] |});
      reflexivity.
Defined.

(** *** Errors and events of call_resthook *)

(** C2, as the code has it.  [Execute] of call_resthook returns an error
    exactly when the resthook resolves and the payload template either
    reports an evaluation error or evaluates to text that is not valid JSON;
    it then returns with the run as it was given, before any event is
    logged.  No other fault of the action is returned as an error. *)
Theorem resthook_error_returns {ifc : Interfaces} {RT : Runtime}
  (a : CallResthookAction) (run : FlowRun) :
  let payload := fst (EvaluateTemplate run ResthookPayload) in
  let err := snd (EvaluateTemplate run ResthookPayload) in
  let res := CallResthookAction_Execute a run in
  ((exists e, snd res = Returns (Some e)) <->
   FindBySlug (cr_Resthook a) <> None /\
   (err <> None \/ json_Valid payload = false)) /\
  (forall e, snd res = Returns (Some e) -> fst res = run).
Proof.
  cbv zeta.
  pose proof (resthook_Execute_cases a run) as C.
  destruct (FindBySlug (cr_Resthook a)) as [rh |].
  - destruct (snd (EvaluateTemplate run ResthookPayload)) as [e |].
    + rewrite C. simpl. split; [| reflexivity].
      split; [intros _ | eauto].
      split; [discriminate | left; discriminate].
    + cbv zeta in C.
      destruct (json_Valid (fst (EvaluateTemplate run ResthookPayload))) eqn:Hvalid.
      * assert (forall e, snd (CallResthookAction_Execute a run) <> Returns (Some e))
          as Hnever.
        { intros e. rewrite C.
          pose proof (callSubscribers_spec a
                        (fst (EvaluateTemplate run ResthookPayload)) (Subscribers rh) []
                        (emit (LogEvent (ResthookCalledEvent (cr_Resthook a)
                                 (fst (EvaluateTemplate run ResthookPayload)))) run))
            as (loop & _ & _ & _ & _ & _ & _ & Hout).
          destruct (callSubscribers a _ (Subscribers rh) [] _) as [run2 [calls | e' |]];
            simpl in Hout |- *; try discriminate.
          destruct Hout as [-> _]. discriminate. }
        split.
        -- split.
           ++ intros [e He]. destruct (Hnever e He).
           ++ intros [_ [H | H]]; [destruct H; reflexivity | discriminate].
        -- intros e He. destruct (Hnever e He).
      * rewrite C. simpl. split; [| reflexivity].
        split; [intros _ | eauto].
        split; [discriminate | right; reflexivity].
  - rewrite C. simpl. split; [| discriminate].
    split; [intros [e He]; discriminate | intros [H _]; destruct H; reflexivity].
Qed.

Lemma resthook_error_returns_witness :
  fst (@CallResthookAction_Execute fixtures.plainInterfaces fixtures.invalidPayload
         (fixtures.registration "signup") fixtures.freshRun) =
  fixtures.freshRun.
Proof.
  apply (proj2 (@resthook_error_returns fixtures.plainInterfaces fixtures.invalidPayload
                  (fixtures.registration "signup") fixtures.freshRun)
           "resthook payload evaluation produced invalid JSON: {"%string).
  reflexivity.
Defined.

(** C2, as stated, fails: the payload template of this run evaluates to the
    valid JSON text [{}] together with an evaluation error, and [Execute]
    returns an error all the same. *)
Lemma resthook_error_with_valid_json :
  @json_Valid fixtures.plainInterfaces fixtures.failingPayload
    (fst (@EvaluateTemplate fixtures.plainInterfaces fixtures.failingPayload
            fixtures.freshRun ResthookPayload)) = true /\
  @CallResthookAction_Execute fixtures.plainInterfaces fixtures.failingPayload
    (fixtures.registration "signup") fixtures.freshRun =
  (fixtures.freshRun,
   Returns (Some "error evaluating resthook payload: contact has no urn"%string)).
Proof. split; reflexivity. Qed.

(** C5, as the code has it.  When the resthook resolves and the payload
    template evaluates without error to valid JSON, the first effect of
    [Execute] is the one [resthook_called] event, carrying the payload, so
    before any call of a subscriber; the [webhook_called] events that follow
    are, in order, those of the calls the subscribers answered.  With no
    subscribers that event is still logged, and a "no subscribers" failure
    result is saved when the action has a result name, none when it has
    not. *)
Theorem resthook_events {ifc : Interfaces} {RT : Runtime}
  (a : CallResthookAction) (run : FlowRun) (rh : Resthook) (payload : string) :
  FindBySlug (cr_Resthook a) = Some rh ->
  EvaluateTemplate run ResthookPayload = (payload, None) ->
  json_Valid payload = true ->
  let res := CallResthookAction_Execute a run in
  exists rest,
    appended run (fst res) =
      LogEvent (ResthookCalledEvent (cr_Resthook a) payload) :: rest /\
    filter isResthookCalled (eventsOf rest) = [] /\
    filter isWebhookCalled (eventsOf rest) =
      map (fun c => WebhookCalledEvent c (callStatus c true) (cr_Resthook a))
        (responsesOf rest) /\
    (Subscribers rh = [] ->
     snd res = Returns None /\
     rest = if String.eqb (cr_ResultName a) "" then []
            else [SaveResult (cr_ResultName a) "no subscribers" "Failure" "" "" None]).
Proof.
  intros Hfind Heval Hvalid. cbv zeta.
  pose proof (resthook_Execute_cases a run) as C.
  rewrite Hfind, Heval in C. simpl in C. rewrite Hvalid in C.
  pose proof (callSubscribers_spec a payload (Subscribers rh) []
                (emit (LogEvent (ResthookCalledEvent (cr_Resthook a) payload)) run)) as L.
  destruct (callSubscribers a payload (Subscribers rh) [] _) as [run2 out] eqn:Eloop.
  destruct L as (loop & Ht & Hw & Hfacts). simpl in Ht, Hw, Hfacts.
  assert (run2 =
            extended (emit (LogEvent (ResthookCalledEvent (cr_Resthook a) payload)) run)
              loop) as ->.
  { unfold extended. destruct run2 as [w t]. simpl in Ht, Hw |- *.
    rewrite Ht, Hw. reflexivity. }
  rewrite C, afterLoop_appended, afterLoop_completion.
  eexists. split; [reflexivity |].
  destruct Hfacts as (_ & _ & Hrc & Hwc & Hout).
  assert (eventsOf match out with Next calls => resultEffects a calls | _ => [] end
          = [] /\
          responsesOf match out with Next calls => resultEffects a calls | _ => [] end
          = []) as [Hev Hresp].
  { destruct out as [calls | |]; try (split; reflexivity).
    destruct (resultEffects_observed a calls) as (-> & _ & ->). split; reflexivity. }
  rewrite eventsOf_app, responsesOf_app, !filter_app, Hev, Hresp, Hrc, Hwc.
  simpl. rewrite !app_nil_r.
  split; [reflexivity |]. split; [reflexivity |].
  intros Hnone. rewrite Hnone in Eloop. simpl in Eloop. unfold ret in Eloop.
  injection Eloop as Hrun <-.
  assert (loop = []) as ->.
  { rewrite <- app_nil_r in Hrun at 1. apply app_inv_head in Hrun. congruence. }
  split; [reflexivity |]. unfold resultEffects. simpl.
  destruct (String.eqb (cr_ResultName a) ""); reflexivity.
Qed.

Lemma resthook_events_witness :
  exists rest,
    appended fixtures.freshRun
      (fst (@CallResthookAction_Execute fixtures.plainInterfaces fixtures.working
              (fixtures.resthookAction "nobody" "signup") fixtures.freshRun)) =
      LogEvent (ResthookCalledEvent "nobody" "{}") :: rest /\
    filter isResthookCalled (eventsOf rest) = [] /\
    filter isWebhookCalled (eventsOf rest) =
      map (fun c => WebhookCalledEvent c (callStatus c true) "nobody")
        (responsesOf rest) /\
    (@nil string = [] ->
     snd (@CallResthookAction_Execute fixtures.plainInterfaces fixtures.working
            (fixtures.resthookAction "nobody" "signup") fixtures.freshRun) =
       Returns None /\
     rest = [SaveResult "signup" "no subscribers" "Failure" "" "" None]).
Proof.
  apply (@resthook_events fixtures.plainInterfaces fixtures.working
           (fixtures.resthookAction "nobody" "signup") fixtures.freshRun
           {| Slug := "nobody"; Subscribers := [] |} "{}"%string);
    reflexivity.
Defined.

(** C5, as stated, fails: this action has no result name, its resthook
    resolves and has no subscriber, its payload is valid JSON, and nothing is
    saved: the [resthook_called] event is all [Execute] leaves. *)
Lemma resthook_no_subscribers_no_result_name :
  @FindBySlug fixtures.plainInterfaces fixtures.working "nobody" =
    Some {| Slug := "nobody"; Subscribers := [] |} /\
  @EvaluateTemplate fixtures.plainInterfaces fixtures.working fixtures.freshRun
    ResthookPayload = ("{}"%string, None) /\
  @json_Valid fixtures.plainInterfaces fixtures.working "{}" = true /\
  appended fixtures.freshRun
    (fst (@CallResthookAction_Execute fixtures.plainInterfaces fixtures.working
            (fixtures.resthookAction "nobody" "") fixtures.freshRun)) =
    [LogEvent (ResthookCalledEvent "nobody" "{}")] /\
  savesOf
    (appended fixtures.freshRun
       (fst (@CallResthookAction_Execute fixtures.plainInterfaces fixtures.working
               (fixtures.resthookAction "nobody" "") fixtures.freshRun))) = [].
Proof. repeat split. Qed.

(* ===================================================================== *)
(** ** Further properties of the code *)
(* ===================================================================== *)

(** *** The helpers of the flow runner *)

Lemma strings_Contains_empty (substr : string) :
  flowrunner.strings_Contains "" substr = true -> substr = ""%string.
Proof. destruct substr; [reflexivity | discriminate]. Qed.

Lemma deriveFilename_slash (prefix filename : string) :
  flowrunner.strings_Contains (flowrunner.deriveFilename prefix filename) "/" = true.
Proof.
  unfold flowrunner.deriveFilename.
  destruct (flowrunner.strings_Contains
              (if String.eqb filename "" then "default.json"%string else filename) "/")
    eqn:E; simpl negb; cbv iota.
  - exact E.
  - cbn. destruct (_ ++ _)%string; reflexivity.
Qed.

(** X1.  [deriveFilename] always gives a path: its result holds a slash, so
    it is never empty, and deriving again, under any prefix, changes
    nothing. *)
Theorem deriveFilename_idempotent (prefix prefix' filename : string) :
  flowrunner.strings_Contains (flowrunner.deriveFilename prefix filename) "/" = true /\
  flowrunner.deriveFilename prefix filename <> ""%string /\
  flowrunner.deriveFilename prefix' (flowrunner.deriveFilename prefix filename) =
    flowrunner.deriveFilename prefix filename.
Proof.
  pose proof (deriveFilename_slash prefix filename) as H.
  assert (flowrunner.deriveFilename prefix filename <> ""%string) as Hne.
  { intros E. rewrite E in H. discriminate. }
  split; [exact H |]. split; [exact Hne |].
  unfold flowrunner.deriveFilename at 1.
  apply String.eqb_neq in Hne. rewrite Hne, H. reflexivity.
Qed.

(** X2.  The names [deriveFilename] leaves alone are exactly those that hold
    a slash; every other name, the empty one as [default.json], is put under
    [testdata/] and the prefix. *)
Theorem deriveFilename_fixed (prefix filename : string) :
  (flowrunner.deriveFilename prefix filename = filename <->
   flowrunner.strings_Contains filename "/" = true) /\
  (flowrunner.strings_Contains filename "/" = false ->
   flowrunner.deriveFilename prefix filename =
     ("testdata/" ++ prefix ++
      (if String.eqb filename "" then "default.json" else filename))%string).
Proof.
  split.
  - split.
    + intros E. rewrite <- E. apply deriveFilename_slash.
    + intros H. unfold flowrunner.deriveFilename.
      destruct (String.eqb_spec filename "") as [-> | Hne]; [discriminate |].
      rewrite H. reflexivity.
  - intros H. unfold flowrunner.deriveFilename.
    destruct (String.eqb_spec filename "") as [-> | Hne].
    + reflexivity.
    + rewrite H. reflexivity.
Qed.

Lemma deriveFilename_fixed_witness :
  flowrunner.deriveFilename "flows/" "two_questions.json" =
    "testdata/flows/two_questions.json"%string.
Proof.
  apply (proj2 (deriveFilename_fixed "flows/" "two_questions.json")). reflexivity.
Defined.

(** X3.  [readFile] reads the file [deriveFilename] names, so reading a
    derived name under any prefix is reading the name itself; what it
    returns is never both data and an error: on an error of [ReadFile] the
    data, were there any, is dropped. *)
Theorem readFile_derived (ReadFile : string -> result string)
  (prefix prefix' filename : string) :
  flowrunner.readFile ReadFile prefix' (flowrunner.deriveFilename prefix filename) =
    flowrunner.readFile ReadFile prefix filename /\
  (snd (flowrunner.readFile ReadFile prefix filename) <> None <->
   snd (ReadFile (flowrunner.deriveFilename prefix filename)) <> None) /\
  (snd (flowrunner.readFile ReadFile prefix filename) <> None ->
   fst (flowrunner.readFile ReadFile prefix filename) = None) /\
  (snd (ReadFile (flowrunner.deriveFilename prefix filename)) = None ->
   flowrunner.readFile ReadFile prefix filename =
     ReadFile (flowrunner.deriveFilename prefix filename)).
Proof.
  unfold flowrunner.readFile. cbv zeta.
  destruct (deriveFilename_idempotent prefix prefix' filename) as (_ & _ & ->).
  split; [reflexivity |].
  destruct (ReadFile (flowrunner.deriveFilename prefix filename)) as [bytes [err |]];
    simpl.
  - split; [split; intros _; discriminate |]. split; [reflexivity | discriminate].
  - split; [split; intros H; exact H |].
    split; [intros H; destruct H; reflexivity | reflexivity].
Qed.

Lemma readFile_derived_witness :
  fst (flowrunner.readFile
         (fun name => (Some ""%string, Some "unexpected EOF"%string)) "flows/"
         "empty.json") = None.
Proof.
  apply (proj1 (proj2 (proj2 (readFile_derived
                                (fun name => (Some ""%string,
                                              Some "unexpected EOF"%string))
                                "flows/" "flows/" "empty.json")))).
  discriminate.
Defined.

(** *** More on the status of a call and the choice of the result *)

Lemma callStatus_true_cases (c : WebhookCall) :
  callStatus c true =
    if returnedFailure c then
      (if StatusCode c =? 0 then CallStatusConnectionError else CallStatusResponseError)
    else if returned2xx c then CallStatusSuccess
    else CallStatusSubscriberGone.
Proof.
  unfold callStatus, returnedFailure, returned2xx, returned410.
  rewrite quot_100_is2xx. unfold is2xx. simpl.
  destruct (Z.eqb_spec (StatusCode c) 0) as [E0 | E0];
    destruct (Z.eqb_spec (StatusCode c) 410) as [E1 | E1];
    destruct (Z.leb_spec 200 (StatusCode c));
    destruct (Z.leb_spec (StatusCode c) 299); simpl; try reflexivity; lia.
Qed.

Lemma lastOf_In {A : Type} (p : A -> bool) (c : A) (l : list A) :
  lastOf p c l -> In c l /\ p c = true.
Proof.
  intros (before & after & -> & Hp & _). split; [| exact Hp].
  apply in_or_app. right. left. reflexivity.
Qed.

(** X4.  The resthook status of a call differs from its plain status only
    for the code 410: every other code has the same status with and without
    the resthook flag, and in both readings the status is success exactly for
    the 2xx codes and connection_error exactly for the code 0. *)
Theorem callStatus_flag (c : WebhookCall) (isResthook : bool) :
  (StatusCode c <> 410 -> callStatus c true = callStatus c false) /\
  (callStatus c isResthook = CallStatusSuccess <->
   200 <= StatusCode c <= 299) /\
  (callStatus c isResthook = CallStatusConnectionError <-> StatusCode c = 0).
Proof.
  unfold callStatus. rewrite quot_100_is2xx. unfold is2xx.
  destruct (Z.eqb_spec (StatusCode c) 0) as [E0 | E0];
    destruct (Z.eqb_spec (StatusCode c) 410) as [E1 | E1];
    destruct (Z.leb_spec 200 (StatusCode c));
    destruct (Z.leb_spec (StatusCode c) 299);
    destruct isResthook; simpl;
    (split; [intros; try reflexivity; lia |]);
    (split; split; intros; try discriminate; try reflexivity; lia).
Qed.

Lemma callStatus_flag_witness :
  callStatus (fixtures.answer "http://c.example/hook" 500) true =
  callStatus (fixtures.answer "http://c.example/hook" 500) false.
Proof.
  apply (proj1 (callStatus_flag (fixtures.answer "http://c.example/hook" 500) true)).
  discriminate.
Defined.

(** X5.  [pickResultCall] gives no call only for no calls; the call it gives
    is one of the calls. *)
Theorem pickResultCall_member (calls : list WebhookCall) :
  (pickResultCall calls = None <-> calls = []) /\
  (forall c, pickResultCall calls = Some c -> In c calls).
Proof.
  rewrite pickResultCall_spec. unfold resultCallOfSpec.
  destruct (lastSuch returnedFailure calls) as [f |] eqn:Ef.
  { apply lastSuch_split, lastOf_In in Ef as [Hin _].
    split.
    - split; [discriminate | intros ->; contradiction].
    - intros c [= <-]. exact Hin. }
  destruct (lastSuch returned2xx calls) as [s |] eqn:Es.
  { apply lastSuch_split, lastOf_In in Es as [Hin _].
    split.
    - split; [discriminate | intros ->; contradiction].
    - intros c [= <-]. exact Hin. }
  split.
  - split; [| intros ->; reflexivity].
    intros Eg. destruct calls as [| c calls]; [reflexivity | exfalso].
    apply lastSuch_none in Ef, Es, Eg. simpl in Ef, Es, Eg.
    apply andb_true_iff in Ef as [Ef _]. apply andb_true_iff in Es as [Es _].
    apply andb_true_iff in Eg as [Eg _].
    unfold returnedFailure in Ef.
    destruct (returned2xx c); [discriminate |].
    destruct (returned410 c); discriminate.
  - intros c Eg. apply lastSuch_split, lastOf_In in Eg as [Hin _]. exact Hin.
Qed.

Lemma pickResultCall_member_witness :
  In (fixtures.answer "http://b.example/hook" 410)
     [fixtures.answer "http://b.example/hook" 410].
Proof.
  apply (proj2 (pickResultCall_member [fixtures.answer "http://b.example/hook" 410])).
  reflexivity.
Defined.

(** X6.  The call chosen as the result tells the worst of the calls: its
    resthook status is a failure (connection_error or response_error) exactly
    when some call failed; it is success only when every call was answered
    2xx or 410; and it is subscriber_gone only when every call was answered
    410. *)
Theorem pickResultCall_worst (calls : list WebhookCall) (c : WebhookCall) :
  pickResultCall calls = Some c ->
  (isFailureStatus (callStatus c true) = true <->
   exists c', In c' calls /\ isFailureStatus (callStatus c' true) = true) /\
  (callStatus c true = CallStatusSuccess ->
   forall c', In c' calls ->
     callStatus c' true = CallStatusSuccess \/
     callStatus c' true = CallStatusSubscriberGone) /\
  (callStatus c true = CallStatusSubscriberGone ->
   forall c', In c' calls -> callStatus c' true = CallStatusSubscriberGone).
Proof.
  assert (forall x, isFailureStatus (callStatus x true) = returnedFailure x) as Hfail.
  { intros x. rewrite callStatus_true_cases.
    destruct (returnedFailure x).
    - destruct (StatusCode x =? 0); reflexivity.
    - destruct (returned2xx x); reflexivity. }
  assert (forall p (l : list WebhookCall) x,
            lastSuch p l = None -> In x l -> p x = false) as Hnone.
  { intros p l x E Hin. apply lastSuch_none in E.
    rewrite forallb_forall in E. apply negb_true_iff. exact (E x Hin). }
  rewrite pickResultCall_spec. unfold resultCallOfSpec.
  destruct (lastSuch returnedFailure calls) as [f |] eqn:Ef.
  - intros [= <-]. apply lastSuch_split, lastOf_In in Ef as [Hin Hf].
    split; [| split].
    + rewrite Hfail. split; [| intros _; exact Hf].
      intros _. exists f. rewrite Hfail. auto.
    + intros E. rewrite callStatus_true_cases, Hf in E.
      destruct (StatusCode f =? 0); discriminate.
    + intros E. rewrite callStatus_true_cases, Hf in E.
      destruct (StatusCode f =? 0); discriminate.
  - destruct (lastSuch returned2xx calls) as [s |] eqn:Es.
    + intros [= <-]. pose proof Es as Es'.
      apply lastSuch_split, lastOf_In in Es' as [Hin Hs].
      assert (returnedFailure s = false) as Hsf by (apply (Hnone _ _ _ Ef Hin)).
      split; [| split].
      * rewrite Hfail, Hsf. split; [discriminate |].
        intros (c' & Hin' & H'). rewrite Hfail, (Hnone _ _ _ Ef Hin') in H'.
        discriminate.
      * intros _ c' Hin'. rewrite callStatus_true_cases, (Hnone _ _ _ Ef Hin').
        destruct (returned2xx c'); auto.
      * intros E. rewrite callStatus_true_cases, Hsf, Hs in E. discriminate.
    + intros Eg. pose proof Eg as Eg'.
      apply lastSuch_split, lastOf_In in Eg' as [Hin Hg].
      split; [| split].
      * rewrite Hfail, (Hnone _ _ _ Ef Hin). split; [discriminate |].
        intros (c' & Hin' & H'). rewrite Hfail, (Hnone _ _ _ Ef Hin') in H'.
        discriminate.
      * intros _ c' Hin'. rewrite callStatus_true_cases, (Hnone _ _ _ Ef Hin').
        destruct (returned2xx c'); auto.
      * intros _ c' Hin'.
        rewrite callStatus_true_cases, (Hnone _ _ _ Ef Hin'), (Hnone _ _ _ Es Hin').
        reflexivity.
Qed.

Lemma pickResultCall_worst_witness :
  isFailureStatus (callStatus (fixtures.answer "http://c.example/hook" 500) true) = true.
Proof.
  apply (proj1 (pickResultCall_worst
                  [fixtures.answer "http://a.example/hook" 200;
                   fixtures.answer "http://c.example/hook" 500;
                   fixtures.answer "http://b.example/hook" 410]
                  (fixtures.answer "http://c.example/hook" 500) eq_refl)).
  exists (fixtures.answer "http://c.example/hook" 500).
  split; [right; left; reflexivity | reflexivity].
Defined.

(** *** Validate *)

Section ValidateFacts.
Variable valid : string -> bool.

Lemma validateHeaders_nil (headers : list (string * string)) :
  validateHeaders valid headers = None <->
  forallb (fun kv => valid (fst kv)) headers = true.
Proof.
  induction headers as [| [key value] rest IH]; simpl.
  - split; reflexivity.
  - destruct (valid key); simpl.
    + exact IH.
    + split; discriminate.
Qed.

Lemma validateHeaders_error (headers : list (string * string)) (e : error) :
  validateHeaders valid headers = Some e ->
  exists key value,
    In (key, value) headers /\ valid key = false /\
    e = ("header '" ++ key ++ "' is not a valid HTTP header")%string.
Proof.
  induction headers as [| [key value] rest IH]; simpl; [discriminate |].
  destruct (valid key) eqn:Hk; simpl.
  - intros H. destruct (IH H) as (k & v & Hin & Hv & ->). exists k, v. auto.
  - intros [= <-]. exists key, value. auto.
Qed.

End ValidateFacts.

(** X7.  [Validate] of call_webhook accepts an action exactly when every key
    of its headers is a valid header field name, whatever the order in which
    the map is visited; the error it gives otherwise names one of the invalid
    keys. *)
Theorem Validate_headers (valid : string -> bool) (a a' : CallWebhookAction) :
  (Validate valid a = None <->
   forall key value, In (key, value) (cw_Headers a) -> valid key = true) /\
  (forall e, Validate valid a = Some e ->
     exists key value,
       In (key, value) (cw_Headers a) /\ valid key = false /\
       e = ("header '" ++ key ++ "' is not a valid HTTP header")%string) /\
  (Permutation (cw_Headers a) (cw_Headers a') ->
   (Validate valid a = None <-> Validate valid a' = None)).
Proof.
  assert (forall b, Validate valid b = None <->
            forall key value, In (key, value) (cw_Headers b) -> valid key = true) as H.
  { intros b. unfold Validate. rewrite validateHeaders_nil, forallb_forall. split.
    - intros Hall key value Hin. exact (Hall (key, value) Hin).
    - intros Hall [key value] Hin. exact (Hall key value Hin). }
  split; [apply H |]. split; [intros e; apply validateHeaders_error |].
  intros Hperm. rewrite !H. split; intros Hall key value Hin.
  - apply (Hall key value). apply (Permutation_in _ (Permutation_sym Hperm) Hin).
  - apply (Hall key value). apply (Permutation_in _ Hperm Hin).
Qed.

Lemma Validate_headers_witness :
  exists key value,
    In (key, value) [("Accept"%string, "*/*"%string); ("Bad Key"%string, "1"%string)] /\
    negb (String.eqb key "Bad Key") = false /\
    "header 'Bad Key' is not a valid HTTP header"%string =
      ("header '" ++ key ++ "' is not a valid HTTP header")%string.
Proof.
  apply (proj1 (proj2 (Validate_headers
                         (fun key => negb (String.eqb key "Bad Key"))
                         {| cw_Method := "GET"; cw_URL := "http://a.example/hook";
                            cw_Headers := [("Accept"%string, "*/*"%string);
                                           ("Bad Key"%string, "1"%string)];
                            cw_Body := ""; cw_ResultName := "";
                            cw_ResponseAsExtra := false |}
                         {| cw_Method := "GET"; cw_URL := "http://a.example/hook";
                            cw_Headers := []; cw_Body := ""; cw_ResultName := "";
                            cw_ResponseAsExtra := false |}))).
  reflexivity.
Defined.

Section WebhookOutcome.
Context {ifc : Interfaces} {RT : Runtime}.

Lemma callEffects_observed (a : CallWebhookAction) (req : HTTPRequest)
  (r : result WebhookCall) :
  requestsOf (callEffects a req r) = [req] /\
  responsesOf (callEffects a req r) =
    match fst r with Some c => [c] | None => [] end /\
  webhooksSet (callEffects a req r) =
    match fst r with Some c => [webhookOf c] | None => [] end /\
  savesOf (callEffects a req r) =
    match fst r with
    | Some c =>
        if String.eqb (cw_ResultName a) "" then []
        else [SaveWebhookResult (cw_ResultName a) c (callStatus c false)
                (cw_ResponseAsExtra a)]
    | None => []
    end.
Proof.
  unfold callEffects.
  destruct r as [[c |] [e |]]; simpl;
    try (destruct (String.eqb (cw_ResultName a) "")); repeat split.
Qed.

Lemma webhookOutcome_errors (a : CallWebhookAction) (run : FlowRun) (pre : list Effect)
  (c : Completion) :
  forallb isErrorLog pre = true ->
  webhookOutcome a run (extended run pre, c) pre.
Proof.
  intros H. destruct (onlyErrors_observed pre H) as (H1 & H2 & H3 & H4 & _).
  unfold webhookOutcome. rewrite H1, H2, H3, H4. simpl.
  repeat split; try lia; try contradiction.
  destruct (String.eqb (cw_ResultName a) ""); reflexivity.
Qed.

Lemma webhook_Execute_outcome (a : CallWebhookAction) (run : FlowRun) :
  webhookOutcome a run (CallWebhookAction_Execute a run)
    (appended run (fst (CallWebhookAction_Execute a run))).
Proof.
  destruct (webhook_Execute_explicit a run) as (pre & Hpre & C). cbv zeta in C.
  destruct (negb _ && isValidURL _).
  - destruct (http_NewRequest _ _ _) as [e |].
    + rewrite C. simpl fst. rewrite appended_extended.
      apply webhookOutcome_errors. exact Hpre.
    + destruct C as (req & Hshape & ->).
      destruct (engine.Webhook Services (extended run pre)) as [[svc |] [e |]].
      * simpl fst. rewrite appended_extended. apply webhookOutcome_errors.
        rewrite forallb_app, Hpre. reflexivity.
      * cbv zeta. simpl fst.
        rewrite (appended_app run _ (pre ++ callEffects a req
                                        (Call svc (extended run pre) req)))
          by reflexivity.
        destruct (onlyErrors_observed pre Hpre) as (H1 & H2 & H3 & H4 & _).
        destruct (callEffects_observed a req (Call svc (extended run pre) req))
          as (K1 & K2 & K3 & K4).
        unfold webhookOutcome.
        rewrite requestsOf_app, responsesOf_app, webhooksSet_app, savesOf_app,
          H1, H2, H3, H4, K1, K2, K3, K4. simpl.
        split; [lia |]. split; [intros r [<- | []]; exact Hshape |].
        destruct (fst (Call svc (extended run pre) req)) as [c |]; simpl;
          (split; [lia |]); (split; [reflexivity |]);
          destruct (String.eqb (cw_ResultName a) ""); split; reflexivity.
      * simpl fst. rewrite appended_extended. apply webhookOutcome_errors.
        rewrite forallb_app, Hpre. reflexivity.
      * simpl fst. rewrite appended_extended. apply webhookOutcome_errors.
        exact Hpre.
  - rewrite C. simpl fst. rewrite appended_extended.
    apply webhookOutcome_errors. exact Hpre.
Qed.

End WebhookOutcome.

(** X8.  An execution of call_webhook hands at most one request to the
    webhook service, and that request is for the evaluated URL, with the
    method of the action in upper case, with the body of the action
    evaluated (an empty body is sent as it is, unevaluated), and with, as
    the keys of its header, the keys of the action's headers, each in its
    canonical form (a header being a map, up to their order). *)
Theorem webhook_request {ifc : Interfaces} {RT : Runtime}
  (a : CallWebhookAction) (run : FlowRun) :
  let new := appended run (fst (CallWebhookAction_Execute a run)) in
  (length (requestsOf new) <= 1)%nat /\
  (forall req, In req (requestsOf new) ->
     req_url req = fst (EvaluateTemplate run (cw_URL a)) /\
     req_method req = strings_ToUpper (cw_Method a) /\
     req_body req =
       (if String.eqb (cw_Body a) "" then ""%string
        else fst (EvaluateTemplate
                    (logged (snd (EvaluateTemplate run (cw_URL a))) run) (cw_Body a))) /\
     Permutation (map fst (req_header req))
       (map (fun kv => textproto.CanonicalMIMEHeaderKey (fst kv)) (cw_Headers a))).
Proof.
  cbv zeta. destruct (webhook_Execute_outcome a run) as (H1 & H2 & _).
  split; [exact H1 |]. intros req Hin.
  destruct (H2 req Hin) as (Hu & Hm & Hb & Hk).
  split; [exact Hu |]. split; [exact Hm |]. split; [| exact Hk].
  rewrite Hb. unfold evaluatedBody.
  destruct (String.eqb_spec (cw_Body a) "") as [-> | _]; reflexivity.
Qed.

Lemma webhook_request_witness :
  Permutation ["X-Api-Key"%string]
    (map (fun kv => textproto.CanonicalMIMEHeaderKey (fst kv))
       [("x-api-key"%string, "secret"%string)]).
Proof.
  apply (proj2 (@webhook_request fixtures.plainInterfaces fixtures.working
                  {| cw_Method := "GET"; cw_URL := "http://a.example/hook";
                     cw_Headers := [("x-api-key"%string, "secret"%string)];
                     cw_Body := ""; cw_ResultName := "";
                     cw_ResponseAsExtra := false |}
                  fixtures.freshRun)
           {| req_method := "GET"; req_url := "http://a.example/hook";
              req_header := [("X-Api-Key"%string, "secret"%string)];
              req_body := "" |}).
  left. reflexivity.
Defined.

(** X9.  In an execution of call_webhook the service answers at most one
    call; [SetWebhook] is called once per answered call, with its parsed
    response, which is then the scratch webhook value of the run, and never
    otherwise (a call without an answer leaves the value as it was); a result
    is saved once per answered call when the action has a result name, with the
    plain status of the call and the [response_as_extra] flag of the action,
    and never otherwise. *)
Theorem webhook_result {ifc : Interfaces} {RT : Runtime}
  (a : CallWebhookAction) (run : FlowRun) :
  let res := CallWebhookAction_Execute a run in
  let new := appended run (fst res) in
  (length (responsesOf new) <= 1)%nat /\
  webhooksSet new =
    map (fun c => JSONToXValue (ExtractResponseJSON (Response c))) (responsesOf new) /\
  savesOf new =
    (if String.eqb (cw_ResultName a) "" then []
     else map (fun c => SaveWebhookResult (cw_ResultName a) c (callStatus c false)
                          (cw_ResponseAsExtra a)) (responsesOf new)) /\
  run_webhook (fst res) =
    match responsesOf new with
    | c :: _ => JSONToXValue (ExtractResponseJSON (Response c))
    | [] => run_webhook run
    end.
Proof.
  cbv zeta. destruct (webhook_Execute_outcome a run) as (_ & _ & H3 & H4 & H5 & H6).
  repeat split; assumption.
Qed.

(** X10.  [Execute] of call_webhook returns an error exactly when the
    evaluated URL is usable (not empty, valid) and [http.NewRequest] refuses
    the upper-cased method, the URL and the evaluated body; the error is the
    one of [http.NewRequest], and then no request is made, no webhook value
    set, no result saved, and only error events were logged. *)
Theorem webhook_error_return {ifc : Interfaces} {RT : Runtime}
  (a : CallWebhookAction) (run : FlowRun) (e : error) :
  let url := fst (EvaluateTemplate run (cw_URL a)) in
  let body := evaluatedBody a (logged (snd (EvaluateTemplate run (cw_URL a))) run) in
  let res := CallWebhookAction_Execute a run in
  let new := appended run (fst res) in
  (snd res = Returns (Some e) <->
   url <> ""%string /\ isValidURL url = true /\
   http_NewRequest (strings_ToUpper (cw_Method a)) url body = Some e) /\
  (snd res = Returns (Some e) ->
   forallb isErrorLog new = true /\ requestsOf new = [] /\
   run_webhook (fst res) = run_webhook run).
Proof.
  cbv zeta.
  destruct (webhook_Execute_explicit a run) as (pre & Hpre & C). cbv zeta in C.
  destruct (String.eqb_spec (fst (EvaluateTemplate run (cw_URL a))) "") as [E | E];
    simpl in C.
  - rewrite C. simpl. split; [| discriminate].
    split; [discriminate | intros [H _]; contradiction].
  - destruct (isValidURL (fst (EvaluateTemplate run (cw_URL a)))).
    + destruct (http_NewRequest _ _ _) as [e' |].
      * rewrite C. simpl fst. simpl snd. rewrite appended_extended.
        split.
        -- split; [intros [= ->]; auto | intros (_ & _ & [= ->]); reflexivity].
        -- intros _. split; [exact Hpre |].
           split; [apply (onlyErrors_observed pre Hpre) | reflexivity].
      * destruct C as (req & _ & ->).
        destruct (engine.Webhook Services (extended run pre)) as [[svc |] [e' |]];
          simpl; (split; [| discriminate]);
          (split; [discriminate | intros (_ & _ & H); discriminate]).
    + rewrite C. simpl. split; [| discriminate].
      split; [discriminate | intros (_ & H & _); discriminate].
Qed.

Lemma canonical_byte_valid (upper : bool) (c : ascii) :
  textproto.validHeaderFieldByte c = true ->
  textproto.validHeaderFieldByte
    (if (upper && textproto.isLower c)%bool then textproto.toUpper c
     else if (negb upper && textproto.isUpper c)%bool then textproto.toLower c
     else c) = true.
Proof.
  destruct upper; destruct c as [[] [] [] [] [] [] [] []]; vm_compute;
    intros H; first [exact H | reflexivity].
Qed.

Lemma canonicalize_valid (s : string) :
  forall upper,
    textproto.allBytes textproto.validHeaderFieldByte s = true ->
    textproto.allBytes textproto.validHeaderFieldByte (textproto.canonicalize upper s)
      = true.
Proof.
  induction s as [| c s IH]; intros upper H; [reflexivity |].
  simpl in H. apply andb_true_iff in H as [Hc Hs].
  cbn [textproto.canonicalize textproto.allBytes].
  rewrite (canonical_byte_valid upper c Hc). apply IH. exact Hs.
Qed.

(** A canonical key of a valid header field name is a valid header field
    name. *)
Lemma CanonicalMIMEHeaderKey_valid (key : string) :
  httpguts.ValidHeaderFieldName key = true ->
  httpguts.ValidHeaderFieldName (textproto.CanonicalMIMEHeaderKey key) = true.
Proof.
  unfold httpguts.ValidHeaderFieldName, textproto.CanonicalMIMEHeaderKey.
  intros H. apply andb_true_iff in H as [Hne Hall]. rewrite Hall.
  rewrite (canonicalize_valid key true Hall), andb_true_r.
  destruct key; [discriminate | reflexivity].
Qed.

(** X11.  A request sent by a call_webhook action that [Validate] accepts
    has only valid header field names, although [req.Header.Add] rewrites
    each key into its canonical form. *)
Theorem Validate_request {ifc : Interfaces} {RT : Runtime}
  (a : CallWebhookAction) (run : FlowRun) (req : HTTPRequest) (key : string) :
  Validate httpguts.ValidHeaderFieldName a = None ->
  In req (requestsOf (appended run (fst (CallWebhookAction_Execute a run)))) ->
  In key (map fst (req_header req)) ->
  httpguts.ValidHeaderFieldName key = true /\
  exists name value,
    In (name, value) (cw_Headers a) /\ key = textproto.CanonicalMIMEHeaderKey name.
Proof.
  intros Hv Hreq Hkey.
  destruct (webhook_Execute_outcome a run) as (_ & H2 & _).
  destruct (H2 req Hreq) as (_ & _ & _ & Hk).
  apply (Permutation_in _ Hk) in Hkey.
  apply in_map_iff in Hkey as ([k v] & <- & Hin).
  unfold Validate in Hv. apply validateHeaders_nil in Hv.
  rewrite forallb_forall in Hv.
  split; [apply CanonicalMIMEHeaderKey_valid; exact (Hv (k, v) Hin) |].
  exists k, v. split; [exact Hin | reflexivity].
Qed.

Lemma Validate_request_witness :
  httpguts.ValidHeaderFieldName "X-Api-Key" = true /\
  exists name value,
    In (name, value) [("x-api-key"%string, "secret"%string)] /\
    "X-Api-Key"%string = textproto.CanonicalMIMEHeaderKey name.
Proof.
  apply (@Validate_request fixtures.plainInterfaces fixtures.working
           {| cw_Method := "get"; cw_URL := "http://a.example/hook";
              cw_Headers := [("x-api-key"%string, "secret"%string)];
              cw_Body := ""; cw_ResultName := ""; cw_ResponseAsExtra := false |}
           fixtures.freshRun
           {| req_method := "get"; req_url := "http://a.example/hook";
              req_header := [("X-Api-Key"%string, "secret"%string)]; req_body := "" |}
           "X-Api-Key"%string).
  - reflexivity.
  - left. reflexivity.
  - left. reflexivity.
Defined.

Lemma webhook_error_return_witness :
  requestsOf
    (appended fixtures.freshRun
       (fst (@CallWebhookAction_Execute fixtures.plainInterfaces
               fixtures.refusingRequests
               (fixtures.webhookAction "http://a.example/hook" "lookup")
               fixtures.freshRun))) = [].
Proof.
  apply (proj2 (@webhook_error_return fixtures.plainInterfaces fixtures.refusingRequests
                  (fixtures.webhookAction "http://a.example/hook" "lookup")
                  fixtures.freshRun "net/http: invalid method"%string)).
  reflexivity.
Defined.

(** X12.  The requests of an execution of call_resthook go, in order, to the
    first subscribers of the resthook, one request per subscriber: each is a
    POST of the evaluated payload to the subscriber's URL with the single
    header Content-Type: application/json. *)
Theorem resthook_requests {ifc : Interfaces} {RT : Runtime}
  (a : CallResthookAction) (run : FlowRun) (rh : Resthook) :
  FindBySlug (cr_Resthook a) = Some rh ->
  exists visited rest,
    Subscribers rh = visited ++ rest /\
    requestsOf (appended run (fst (CallResthookAction_Execute a run))) =
      map (fun url =>
             {| req_method := "POST"; req_url := url;
                req_header := [("Content-Type"%string, "application/json"%string)];
                req_body := fst (EvaluateTemplate run ResthookPayload) |})
        visited.
Proof.
  intros Hfind.
  destruct (resthook_Execute_visits a run)
    as [[E _] | (rh' & payload & loop & out & Hfind' & Heval & _ & _ & Hv & E)].
  - rewrite E, appended_refl. exists [], (Subscribers rh). split; reflexivity.
  - rewrite Hfind in Hfind'. injection Hfind' as <-.
    rewrite E, afterLoop_appended, Heval. simpl fst.
    destruct Hv as (visited & rest & Hsubs & Hreq & _).
    exists visited, rest. split; [exact Hsubs |].
    change (LogEvent ?e :: ?t) with ([LogEvent e] ++ t).
    rewrite !requestsOf_app, Hreq. simpl.
    destruct out as [calls | |]; simpl; rewrite ?app_nil_r; try reflexivity.
    destruct (resultEffects_observed a calls) as (_ & -> & _).
    rewrite app_nil_r. reflexivity.
Qed.

Lemma resthook_requests_witness :
  exists visited rest,
    ["http://a.example/hook"; "not a url"; "http://c.example/hook"]%string =
      visited ++ rest /\
    requestsOf
      (appended fixtures.freshRun
         (fst (@CallResthookAction_Execute fixtures.plainInterfaces fixtures.working
                 (fixtures.resthookAction "broken" "signup") fixtures.freshRun))) =
      map (fun url =>
             {| req_method := "POST"; req_url := url;
                req_header := [("Content-Type"%string, "application/json"%string)];
                req_body := "{}" |})
        visited.
Proof.
  apply (@resthook_requests fixtures.plainInterfaces fixtures.working
           (fixtures.resthookAction "broken" "signup") fixtures.freshRun
           {| Slug := "broken";
              Subscribers := ["http://a.example/hook"; "not a url";
                              "http://c.example/hook"]%string |}).
  reflexivity.
Defined.

(** X13.  When the resthook resolves, the payload is valid JSON, a request
    can be built for each subscriber and the webhook service always resolves,
    call_resthook goes through all its subscribers, whatever their calls
    give: it returns nil, has sent one request to each subscriber in order,
    has logged as error events exactly the errors of the calls, and ends with
    the result: the webhook value is set from the chosen call if there is
    one, and with a result name exactly one result is saved, from the chosen
    call or, when no call was answered, the "no subscribers" failure. *)
Theorem resthook_complete {ifc : Interfaces} {RT : Runtime}
  (a : CallResthookAction) (run : FlowRun) (rh : Resthook) (payload : string) :
  FindBySlug (cr_Resthook a) = Some rh ->
  EvaluateTemplate run ResthookPayload = (payload, None) ->
  json_Valid payload = true ->
  (forall url, In url (Subscribers rh) -> http_NewRequest "POST" url payload = None) ->
  (forall session, exists svc, engine.Webhook Services session = (Some svc, None)) ->
  let res := CallResthookAction_Execute a run in
  let new := appended run (fst res) in
  let chosen := pickResultCall (responsesOf new) in
  snd res = Returns None /\
  map req_url (requestsOf new) = Subscribers rh /\
  errorsLogged new = callErrorsOf new /\
  webhooksSet new =
    match chosen with
    | Some c => [JSONToXValue (ExtractResponseJSON (Response c))]
    | None => []
    end /\
  savesOf new =
    (if String.eqb (cr_ResultName a) "" then []
     else [match chosen with
           | Some c => SaveWebhookResult (cr_ResultName a) c (callStatus c true) false
           | None => SaveResult (cr_ResultName a) "no subscribers" "Failure" "" "" None
           end]) /\
  run_webhook (fst res) =
    match chosen with
    | Some c => JSONToXValue (ExtractResponseJSON (Response c))
    | None => run_webhook run
    end.
Proof.
  intros Hfind Heval Hvalid Hreq Hsvc. cbv zeta.
  destruct (resthook_Execute_visits a run)
    as [[E _] | (rh' & payload' & loop & out & Hfind' & Heval' & _ & Hf & Hv & E)].
  - exfalso. pose proof (resthook_Execute_cases a run) as C.
    rewrite Hfind, Heval in C. simpl in C. rewrite Hvalid in C.
    rewrite C in E.
    destruct (callSubscribers a payload (Subscribers rh) [] _) as [run2 out] eqn:El.
    pose proof (callSubscribers_spec a payload (Subscribers rh) []
                  (emit (LogEvent (ResthookCalledEvent (cr_Resthook a) payload)) run))
      as (new & Ht & _).
    rewrite El in Ht. simpl in Ht.
    assert (length (run_trace (fst (afterLoop a (run2, out)))) >
            length (run_trace run))%nat as Hlen.
    { destruct out; simpl; rewrite ?length_app, Ht, !length_app; simpl; lia. }
    rewrite E in Hlen. lia.
  - rewrite Hfind in Hfind'. injection Hfind' as <-.
    rewrite Heval in Heval'. injection Heval' as <-.
    destruct Hv as (visited & rest & Hsubs & Hreqs & Hout).
    destruct Hf as (Hs & Hset & _ & _ & Hcalls).
    destruct out as [calls | e |].
    + destruct Hout as [-> Herrs]. rewrite app_nil_r in Hsubs. subst visited.
      destruct Hcalls as [-> _]. simpl app in *.
      rewrite E, afterLoop_appended, afterLoop_completion, afterLoop_webhook.
      destruct (resultEffects_observed a (responsesOf loop)) as (_ & K1 & K2).
      destruct (resultEffects_saves a (responsesOf loop)) as (K3 & K4 & K5 & K6).
      change (LogEvent ?e :: ?t) with ([LogEvent e] ++ t).
      rewrite !requestsOf_app, !responsesOf_app, !errorsLogged_app, !callErrorsOf_app,
        !webhooksSet_app, !savesOf_app, K1, K2, K3, K4, K5, K6, Hs, Hset, Herrs, Hreqs.
      simpl. rewrite !app_nil_r, map_map. simpl. rewrite map_id.
      repeat split; reflexivity.
    + exfalso. destruct Hout as (url & rest' & -> & [H | [session H]]).
      * apply H, Hreq. rewrite Hsubs. apply in_or_app. right. left. reflexivity.
      * destruct (Hsvc session) as [svc Es]. rewrite Es in H. apply H. reflexivity.
    + exfalso. destruct Hout as [session H].
      destruct (Hsvc session) as [svc Es]. rewrite Es in H. discriminate.
Qed.

Lemma resthook_complete_witness :
  savesOf
    (appended fixtures.freshRun
       (fst (@CallResthookAction_Execute fixtures.plainInterfaces fixtures.working
               (fixtures.registration "signup") fixtures.freshRun))) =
  [SaveWebhookResult "signup" (fixtures.answer "http://c.example/hook" 500)
     CallStatusResponseError false].
Proof.
  apply (@resthook_complete fixtures.plainInterfaces fixtures.working
           (fixtures.registration "signup") fixtures.freshRun
           {| Slug := "new-registration";
              Subscribers := ["http://a.example/hook"; "http://b.example/hook";
                              "http://c.example/hook"]%string |}
           "{}"%string).
  - reflexivity.
  - reflexivity.
  - reflexivity.
  - intros url [<- | [<- | [<- | []]]]; reflexivity.
  - intros session. eexists. reflexivity.
Defined.

(** X14.  Neither action panics unless the webhook factory breaks its
    contract by giving neither a service nor an error: a panic of [Execute]
    comes with a session for which the factory gave [(nil, nil)]. *)
Theorem Execute_panics_only_without_service {ifc : Interfaces} {RT : Runtime}
  (run : FlowRun) :
  (forall a : CallWebhookAction,
     snd (CallWebhookAction_Execute a run) = Panics ->
     exists session, engine.Webhook Services session = (None, None)) /\
  (forall a : CallResthookAction,
     snd (CallResthookAction_Execute a run) = Panics ->
     exists session, engine.Webhook Services session = (None, None)).
Proof.
  split; intros a Hp.
  - destruct (webhook_Execute_explicit a run) as (pre & _ & C). cbv zeta in C.
    destruct (negb _ && isValidURL _).
    + destruct (http_NewRequest _ _ _) as [e |].
      * rewrite C in Hp. discriminate.
      * destruct C as (req & _ & C). rewrite C in Hp.
        destruct (engine.Webhook Services (extended run pre)) as [[svc |] [e |]] eqn:Es;
          try discriminate.
        exists (extended run pre). exact Es.
    + rewrite C in Hp. discriminate.
  - destruct (resthook_Execute_visits a run)
      as [[_ E] | (rh & payload & loop & out & _ & _ & _ & Hf & Hv & E)].
    + contradiction.
    + rewrite E, afterLoop_completion in Hp.
      destruct Hv as (visited & rest & _ & _ & Hout).
      destruct out as [calls | e |]; try discriminate. exact Hout.
Qed.

Lemma Execute_panics_only_without_service_witness :
  exists session,
    @engine.Webhook fixtures.plainInterfaces
      (@Services fixtures.plainInterfaces fixtures.lawless) session = (None, None).
Proof.
  apply (proj2 (@Execute_panics_only_without_service fixtures.plainInterfaces
                  fixtures.lawless fixtures.freshRun)
           (fixtures.registration "signup")).
  reflexivity.
Defined.

(** X15.  [Results] declares what [Execute] saves, for both actions: an
    execution saves at most one result, and a result it saves bears the name
    of a result that [Results] enumerates (with the webhook categories); an
    action whose [Results] enumerates nothing saves nothing. *)
Theorem Results_declare_saves {ifc : Interfaces} {RT : Runtime}
  (webhookCategories : list string) (Node : Type) (node : Node) (run : FlowRun) :
  (forall a : CallWebhookAction,
     let new := appended run (fst (CallWebhookAction_Execute a run)) in
     (length (savesOf new) <= 1)%nat /\
     (CallWebhookAction_Results webhookCategories a node = [] -> savesOf new = []) /\
     (forall eff, In eff (savesOf new) ->
        exists info,
          In info (CallWebhookAction_Results webhookCategories a node) /\
          savedName eff = Some (ri_name info) /\
          ri_categories info = webhookCategories /\ ri_node info = node)) /\
  (forall a : CallResthookAction,
     let new := appended run (fst (CallResthookAction_Execute a run)) in
     (length (savesOf new) <= 1)%nat /\
     (CallResthookAction_Results webhookCategories a node = [] -> savesOf new = []) /\
     (forall eff, In eff (savesOf new) ->
        exists info,
          In info (CallResthookAction_Results webhookCategories a node) /\
          savedName eff = Some (ri_name info) /\
          ri_categories info = webhookCategories /\ ri_node info = node)).
Proof.
  split; intros a; cbv zeta.
  - destruct (webhook_Execute_outcome a run) as (_ & _ & H3 & _ & H5 & _).
    rewrite H5. unfold CallWebhookAction_Results.
    destruct (String.eqb (cw_ResultName a) "").
    + split; [simpl; lia |]. split; [reflexivity | intros eff []].
    + rewrite length_map. split; [exact H3 |]. split; [discriminate |].
      intros eff Hin. apply in_map_iff in Hin as (c & <- & _).
      eexists. split; [left; reflexivity |]. repeat split.
  - assert (savesOf (appended run (fst (CallResthookAction_Execute a run))) = [] \/
            exists calls,
              savesOf (appended run (fst (CallResthookAction_Execute a run))) =
                savesOf (resultEffects a calls)) as Hs.
    { destruct (resthook_Execute_shape a run)
        as [E | (rh & payload & loop & out & _ & _ & _ & Hf & _ & E)].
      - left. rewrite E, appended_refl. reflexivity.
      - rewrite E, afterLoop_appended. destruct Hf as (Hsl & _).
        change (LogEvent ?e :: ?t) with ([LogEvent e] ++ t).
        rewrite !savesOf_app, Hsl. simpl.
        destruct out as [calls | |]; [right; exists calls; reflexivity | left | left];
          reflexivity. }
    destruct Hs as [-> | [calls ->]].
    + split; [simpl; lia |]. split; [reflexivity | intros eff []].
    + destruct (resultEffects_saves a calls) as (-> & _).
      unfold CallResthookAction_Results.
      destruct (String.eqb (cr_ResultName a) "").
      * split; [simpl; lia |]. split; [reflexivity | intros eff []].
      * split; [simpl; lia |]. split; [discriminate |].
        intros eff [<- | []]. eexists. split; [left; reflexivity |].
        destruct (pickResultCall calls); repeat split.
Qed.

Lemma Results_declare_saves_witness :
  savesOf
    (appended fixtures.freshRun
       (fst (@CallResthookAction_Execute fixtures.plainInterfaces fixtures.working
               (fixtures.registration "") fixtures.freshRun))) = [].
Proof.
  apply (proj2 (@Results_declare_saves fixtures.plainInterfaces fixtures.working
                  ["Success"; "Failure"]%string unit tt fixtures.freshRun)
           (fixtures.registration "")).
  reflexivity.
Defined.
